(** * scan-sense-ui: the scan dashboard of [src/pages/Index.tsx]

    A shallow embedding of the [Index] component's logic: the [handleScan]
    click handler (the POST to [/scan], the demo-data fallback in its
    [catch], the [finally] reset), [generateDemoResults], the two class
    pickers [getSeverityColor] and [getPortStateColor], the events of the
    form and the PDF export [downloadPDF], followed by the properties of
    the specification that concern them and by further properties of the
    code.

    The file holds the component twice: lines 23-568 (with the abort
    timeout, [backendConnected] and the toasts) and an earlier copy at lines
    591-1000.  Module [Index] embeds the first, module [Index2] the second. *)

From Stdlib Require Import List NArith ZArith Bool String Ascii Lia.
Import ListNotations.

Local Open Scope N_scope.
Local Set Warnings "-register-all".

(** ** JavaScript strings

    A JavaScript string is a sequence of UTF-16 code units. *)

Definition jsstring := list N.

(** The code units of an ASCII literal of the source. *)
Definition str (s : string) : jsstring :=
  map N_of_ascii (list_ascii_of_string s).

Definition jsstring_eqb (a b : jsstring) : bool :=
  if list_eq_dec N.eq_dec a b then true else false.

(** [WhiteSpace] and [LineTerminator] of ECMAScript: what
    [String.prototype.trim] strips. *)
Definition isWhiteSpace (c : N) : bool :=
  (c =? 0x0009) || (c =? 0x000A) || (c =? 0x000B) || (c =? 0x000C) ||
  (c =? 0x000D) || (c =? 0x0020) || (c =? 0x00A0) || (c =? 0x1680) ||
  ((0x2000 <=? c) && (c <=? 0x200A)) ||
  (c =? 0x2028) || (c =? 0x2029) || (c =? 0x202F) || (c =? 0x205F) ||
  (c =? 0x3000) || (c =? 0xFEFF).

Fixpoint trimStart (s : jsstring) : jsstring :=
  match s with
  | [] => []
  | c :: s' => if isWhiteSpace c then trimStart s' else s
  end.

Definition trimEnd (s : jsstring) : jsstring := rev (trimStart (rev s)).

(** [s.trim()] *)
Definition trim (s : jsstring) : jsstring := trimEnd (trimStart s).

(** The first character of a string, if it has one, is not white space. *)
Definition headNotSpace (s : jsstring) : Prop :=
  match s with
  | [] => True
  | c :: _ => isWhiteSpace c = false
  end.

(** ** JavaScript values

    What [response.json()] can return and what the component keeps in its
    state.  Numbers are restricted to the integers (enough for lengths and
    HTTP statuses).  An object is the list of its own properties in insertion
    order. *)

Inductive value : Type :=
| VUndefined
| VNull
| VBool (b : bool)
| VNum (n : Z)
| VStr (s : jsstring)
| VArr (items : list value)
| VObj (props : list (jsstring * value)).

(** [ToBoolean] *)
Definition truthy (v : value) : bool :=
  match v with
  | VUndefined | VNull => false
  | VBool b => b
  | VNum n => negb (n =? 0)%Z
  | VStr s => match s with [] => false | _ => true end
  | VArr _ | VObj _ => true
  end.

(** [a || b] *)
Definition js_or (a b : value) : value := if truthy a then a else b.

Fixpoint lookup (k : jsstring) (props : list (jsstring * value)) : option value :=
  match props with
  | [] => None
  | (k', v) :: rest => if jsstring_eqb k k' then Some v else lookup k rest
  end.

(** A piece of a template literal. *)
Inductive part : Type :=
| Lit (s : jsstring)
| Interp (v : value).

(** A template literal, its interpolated values kept as values. *)
Definition template := list part.

(** What is thrown and caught. *)
Inductive exn : Type :=
| NetworkTypeError            (* fetch rejects: the request could not be made *)
| AbortError                  (* fetch rejects: controller.abort() *)
| Error (message : template)  (* new Error(...) *)
| SyntaxError                 (* response.json() on a body that is not JSON *)
| TypeError (reading : jsstring) (* a property read on null or undefined *)
| NotPrimitive                (* TypeError: cannot convert object to primitive value *)
| InvalidChild.               (* React: objects are not valid as a React child *)

Inductive completion (A : Type) : Type :=
| Normal (a : A)
| Throw (e : exn).
Arguments Normal {A} a.
Arguments Throw {A} e.

(** [v.k] for the property names the component reads ([result], [length]
    and the fields of a finding; never an array index). *)
Definition getProp (v : value) (k : jsstring) : completion value :=
  match v with
  | VUndefined | VNull => Throw (TypeError k)
  | VObj props => Normal (match lookup k props with Some x => x | None => VUndefined end)
  | VArr items =>
      Normal (if jsstring_eqb k (str "length")
              then VNum (Z.of_nat (List.length items)) else VUndefined)
  | VStr s =>
      Normal (if jsstring_eqb k (str "length")
              then VNum (Z.of_nat (List.length s)) else VUndefined)
  | VBool _ | VNum _ => Normal VUndefined
  end.

(** [v?.k] *)
Definition getPropOpt (v : value) (k : jsstring) : completion value :=
  match v with
  | VUndefined | VNull => Normal VUndefined
  | _ => getProp v k
  end.

(** [switch (v) { case 'lit': ... }] compares with [===]. *)
Definition is_str (v : value) (lit : string) : bool :=
  match v with
  | VStr s => jsstring_eqb s (str lit)
  | _ => false
  end.

(** Whether [ToString] gives a string.  A value of [response.json()] has
    no function in it, so an object with an own [toString] property cannot
    be converted ([OrdinaryToPrimitive] finds neither a callable [toString]
    nor a [valueOf] that gives a primitive) and throws a [TypeError]; every
    other object is "[object Object]".  An array is joined, which converts
    each of its elements but [null] and [undefined]. *)
Fixpoint stringable (v : value) : bool :=
  match v with
  | VArr items => forallb stringable items
  | VObj props =>
      match lookup (str "toString") props with
      | Some _ => false
      | None => true
      end
  | _ => true
  end.

(** [${v}] in a template literal: the value, kept as it is, when it can be
    converted to a string, and the [TypeError] of the conversion
    otherwise. *)
Definition interpolated (v : value) : completion value :=
  if stringable v then Normal v else Throw NotPrimitive.

(** What React accepts as a child of an element: strings and numbers,
    booleans, [null] and [undefined] (which show nothing), and arrays of
    such; a plain object is refused with an error. *)
Fixpoint validChild (v : value) : bool :=
  match v with
  | VObj _ => false
  | VArr items => forallb validChild items
  | _ => true
  end.

(** ** Effects

    What the handler does to the outside, in order: timers, the request,
    the console and the toasts. *)

Record RequestInit : Type := {
  method : jsstring;
  headers : list (jsstring * jsstring);
  body : value;        (* the argument of JSON.stringify *)
  signal : bool        (* whether an AbortController's signal is attached *)
}.

Record ToastArgs : Type := {
  title : jsstring;
  description : template;
  variant : option jsstring
}.

Inductive effect : Type :=
| SetTimeout (ms : Z)
| ClearTimeout
| Fetch (url : jsstring) (init : RequestInit)
| ConsoleError (label : jsstring) (e : exn)
| Toast (t : ToastArgs).

(** The answer of the backend to one [fetch]: the promise rejects, or it
    resolves to a response with a status and what [response.json()] will
    give. *)
Record Response : Type := {
  status : Z;
  json : completion value
}.

(** [response.ok]: the status is in the range 200-299. *)
Definition ok (r : Response) : bool :=
  ((200 <=? status r) && (status r <=? 299))%Z.

Inductive FetchOutcome : Type :=
| Rejected (e : exn)
| Responded (r : Response).

(** ** A monad for state, effects and exceptions

    A computation reads and writes the component state [S], appends to the
    log of effects, and completes normally or throws; what it did before a
    throw stays done. *)

Definition M (S A : Type) : Type :=
  S * list effect -> completion A * (S * list effect).

Definition ret {S A} (a : A) : M S A := fun w => (Normal a, w).

Definition bind {S A B} (c : M S A) (k : A -> M S B) : M S B :=
  fun w =>
    match c w with
    | (Normal a, w') => k a w'
    | (Throw e, w') => (Throw e, w')
    end.

Definition throw {S A} (e : exn) : M S A := fun w => (Throw e, w).

Definition lift {S A} (c : completion A) : M S A := fun w => (c, w).

Definition gets {S A} (f : S -> A) : M S A := fun w => (Normal (f (fst w)), w).

Definition modify {S} (f : S -> S) : M S unit :=
  fun w => (Normal tt, (f (fst w), snd w)).

Definition emit {S} (e : effect) : M S unit :=
  fun w => (Normal tt, (fst w, snd w ++ [e])).

(** [try { body } catch (error) { handler } finally { fin }] *)
Definition try_catch_finally {S} (body : M S unit) (handler : exn -> M S unit)
    (fin : M S unit) : M S unit :=
  fun w =>
    let (c1, w1) := body w in
    let (c2, w2) := match c1 with
                    | Normal a => (Normal a, w1)
                    | Throw e => handler e w1
                    end in
    let (c3, w3) := fin w2 in
    match c3 with
    | Normal _ => (c2, w3)
    | Throw e => (Throw e, w3)
    end.

(** [await fetch(url, init)]: the request goes out, the outcome comes back. *)
Definition fetch {S} (outcome : FetchOutcome) (url : jsstring) (init : RequestInit)
    : M S Response :=
  bind (emit (Fetch url init))
       (fun _ => match outcome with
                 | Rejected e => throw e
                 | Responded r => ret r
                 end).

Definition toast {S} (t : ToastArgs) : M S unit := emit (Toast t).

Declare Scope js_scope.
Delimit Scope js_scope with js.
Notation "x <- c ;; k" := (bind c (fun x => k))
  (at level 61, c at next level, right associativity) : js_scope.
Notation "c ;; k" := (bind c (fun _ => k))
  (at level 61, right associativity) : js_scope.

(** The requests in a log of effects. *)
Definition requests (log : list effect) : list (jsstring * RequestInit) :=
  flat_map (fun e => match e with Fetch u i => [(u, i)] | _ => [] end) log.

(** The toasts in a log of effects. *)
Definition toasts (log : list effect) : list ToastArgs :=
  flat_map (fun e => match e with Toast t => [t] | _ => [] end) log.

(** ** The component, lines 23-568 *)

Module Index.

(** [{type, target, timestamp}], the value of [lastScanInfo]. *)
Module LastScanInfo.
Record t : Type := {
  type : jsstring;
  target : jsstring;
  timestamp : Z         (* new Date(), as milliseconds *)
}.
End LastScanInfo.

(** The [useState] cells of the component. *)
Record State : Type := {
  target : jsstring;
  scanType : jsstring;
  isScanning : bool;
  scanResults : value;
  lastScanInfo : option LastScanInfo.t;
  backendConnected : bool
}.

(** [useState("")], [useState("nmap")], [useState(false)], [useState([])],
    [useState(null)], [useState(false)] *)
Definition initialState : State := {|
  target := str "";
  scanType := str "nmap";
  isScanning := false;
  scanResults := VArr [];
  lastScanInfo := None;
  backendConnected := false
|}.

Definition setTarget (v : jsstring) : M State unit :=
  modify (fun s => {| target := v; scanType := scanType s;
                      isScanning := isScanning s; scanResults := scanResults s;
                      lastScanInfo := lastScanInfo s;
                      backendConnected := backendConnected s |}).

Definition setScanType (v : jsstring) : M State unit :=
  modify (fun s => {| target := target s; scanType := v;
                      isScanning := isScanning s; scanResults := scanResults s;
                      lastScanInfo := lastScanInfo s;
                      backendConnected := backendConnected s |}).

Definition setIsScanning (v : bool) : M State unit :=
  modify (fun s => {| target := target s; scanType := scanType s;
                      isScanning := v; scanResults := scanResults s;
                      lastScanInfo := lastScanInfo s;
                      backendConnected := backendConnected s |}).

Definition setScanResults (v : value) : M State unit :=
  modify (fun s => {| target := target s; scanType := scanType s;
                      isScanning := isScanning s; scanResults := v;
                      lastScanInfo := lastScanInfo s;
                      backendConnected := backendConnected s |}).

Definition setLastScanInfo (v : option LastScanInfo.t) : M State unit :=
  modify (fun s => {| target := target s; scanType := scanType s;
                      isScanning := isScanning s; scanResults := scanResults s;
                      lastScanInfo := v;
                      backendConnected := backendConnected s |}).

Definition setBackendConnected (v : bool) : M State unit :=
  modify (fun s => {| target := target s; scanType := scanType s;
                      isScanning := isScanning s; scanResults := scanResults s;
                      lastScanInfo := lastScanInfo s;
                      backendConnected := v |}).

(** Lines 8-10; [NODE_ENV] is [process.env.NODE_ENV]. *)
Definition BACKEND_URL (NODE_ENV : jsstring) : jsstring :=
  if jsstring_eqb NODE_ENV (str "production")
  then str "https://your-backend-domain.com"
  else str "http://localhost:5000".

(** Lines 99-147. *)
Definition generateDemoResults (type : jsstring) : list value :=
  if jsstring_eqb type (str "nmap") then
    [ VObj [(str "port", VStr (str "22")); (str "state", VStr (str "open"));
            (str "service", VStr (str "ssh"))];
      VObj [(str "port", VStr (str "80")); (str "state", VStr (str "open"));
            (str "service", VStr (str "http"))];
      VObj [(str "port", VStr (str "443")); (str "state", VStr (str "open"));
            (str "service", VStr (str "https"))];
      VObj [(str "port", VStr (str "3306")); (str "state", VStr (str "filtered"));
            (str "service", VStr (str "mysql"))] ]
  else if jsstring_eqb type (str "nuclei") then
    [ VObj [(str "title", VStr (str "SSL Certificate Expiry Warning"));
            (str "severity", VStr (str "medium"));
            (str "url", VStr (str "https://example.com"));
            (str "description", VStr (str "SSL certificate expires within 30 days"))];
      VObj [(str "title", VStr (str "Directory Listing Enabled"));
            (str "severity", VStr (str "low"));
            (str "url", VStr (str "https://example.com/assets/"));
            (str "description",
             VStr (str "Directory listing is enabled and may expose sensitive files"))];
      VObj [(str "title", VStr (str "Missing Security Headers"));
            (str "severity", VStr (str "medium"));
            (str "url", VStr (str "https://example.com"));
            (str "description", VStr (str "Missing X-Frame-Options header"))] ]
  else if jsstring_eqb type (str "nikto") then
    [ VObj [(str "description",
             VStr (str "Server leaks inodes via ETags, header found with file /, inode: 12345, size: 4096, mtime: Mon Dec 25 10:23:45 2023"));
            (str "endpoint", VStr (str "/"))];
      VObj [(str "description",
             VStr (str "The anti-clickjacking X-Frame-Options header is not present."));
            (str "endpoint", VStr (str "/"))];
      VObj [(str "description",
             VStr (str "Web server returns a valid response with junk HTTP methods, this may cause false positives."));
            (str "endpoint", VStr (str "/"))] ]
  else [].

Local Open Scope js_scope.

(** The request of lines 43-53. *)
Definition scanRequest (target scanType : jsstring) : RequestInit := {|
  method := str "POST";
  headers := [(str "Content-Type", str "application/json")];
  body := VObj [(str "target", VStr (trim target)); (str "type", VStr scanType)];
  signal := true
|}.

(** Lines 32-97.  [target] and [scanType] are those of the render the
    handler was created in; [outcome] is how the backend answers, [now] is
    what [new Date()] gives. *)
Definition handleScan (NODE_ENV : jsstring) (outcome : FetchOutcome) (now : Z)
    : M State unit :=
  target <- gets target ;;
  scanType <- gets scanType ;;
  if negb (truthy (VStr (trim target))) then ret tt
  else
    setIsScanning true ;;
    setScanResults (VArr []) ;;
    try_catch_finally
      (emit (SetTimeout 10000) ;;
       response <- fetch outcome (BACKEND_URL NODE_ENV ++ str "/scan")
                         (scanRequest target scanType) ;;
       emit ClearTimeout ;;
       (if negb (ok response)
        then throw (Error [Lit (str "HTTP error! status: ");
                           Interp (VNum (status response))])
        else ret tt) ;;
       data <- lift (json response) ;;
       result <- lift (getProp data (str "result")) ;;
       setScanResults (js_or result (VArr [])) ;;
       setBackendConnected true ;;
       setLastScanInfo (Some {| LastScanInfo.type := scanType;
                                LastScanInfo.target := trim target;
                                LastScanInfo.timestamp := now |}) ;;
       result <- lift (getProp data (str "result")) ;;
       length <- lift (getPropOpt result (str "length")) ;;
       found <- lift (interpolated (js_or length (VNum 0))) ;;
       toast {| title := str "Scan completed";
                description := [Lit (str "Found "); Interp found; Lit (str " results")];
                variant := None |})
      (fun error =>
         emit (ConsoleError (str "Scan failed:") error) ;;
         toast {| title := str "Backend unavailable";
                  description :=
                    [Lit (str "Using demo data. Connect your backend for real scans.")];
                  variant := Some (str "destructive") |} ;;
         let demoResults := generateDemoResults scanType in
         setScanResults (VArr demoResults) ;;
         setBackendConnected false ;;
         setLastScanInfo (Some {| LastScanInfo.type := scanType;
                                  LastScanInfo.target := trim target;
                                  LastScanInfo.timestamp := now |}))
      (setIsScanning false).

(** *** The interface events

    The target input ([onChange], line 334), the scan-type select
    ([onChange], line 349, whose value is that of one of the options of
    lines 353-355) and the scan button ([onClick], line 364).  The inputs
    are disabled while [isScanning], the button also while the trimmed
    target is empty (lines 337, 351, 365). *)

Definition scanTypeOptions : list jsstring :=
  [str "nmap"; str "nuclei"; str "nikto"].

Inductive event : Type :=
| ChangeTarget (v : jsstring)
| ChangeScanType (v : jsstring)
| ClickScan (outcome : FetchOutcome) (now : Z).

Definition world : Type := State * list effect.

Definition scanDisabled (s : State) : bool :=
  negb (truthy (VStr (trim (target s)))) || isScanning s.

(** What an event does, run to its end (for a click: [handleScan] up to
    the end of its [finally]; the controls are disabled meanwhile); [None]
    when the control is disabled or the value is not one the control can
    give. *)
Definition dispatch (NODE_ENV : jsstring) (ev : event) (w : world) : option world :=
  match ev with
  | ChangeTarget v =>
      if isScanning (fst w) then None else Some (snd (setTarget v w))
  | ChangeScanType v =>
      if isScanning (fst w) then None
      else if existsb (jsstring_eqb v) scanTypeOptions
           then Some (snd (setScanType v w)) else None
  | ClickScan outcome now =>
      if scanDisabled (fst w) then None
      else Some (snd (handleScan NODE_ENV outcome now w))
  end.

Fixpoint run (NODE_ENV : jsstring) (evs : list event) (w : world) : option world :=
  match evs with
  | [] => Some w
  | ev :: rest =>
      match dispatch NODE_ENV ev w with
      | Some w' => run NODE_ENV rest w'
      | None => None
      end
  end.

(** Lines 260-268. *)
Definition getSeverityColor (severity : value) : jsstring :=
  if is_str severity "critical" then str "bg-red-500/20 text-red-300 border-red-500/30"
  else if is_str severity "high" then str "bg-orange-500/20 text-orange-300 border-orange-500/30"
  else if is_str severity "medium" then str "bg-yellow-500/20 text-yellow-300 border-yellow-500/30"
  else if is_str severity "low" then str "bg-blue-500/20 text-blue-300 border-blue-500/30"
  else str "bg-gray-500/20 text-gray-300 border-gray-500/30".

(** Lines 270-277. *)
Definition getPortStateColor (state : value) : jsstring :=
  if is_str state "open" then str "text-green-400"
  else if is_str state "closed" then str "text-red-400"
  else if is_str state "filtered" then str "text-yellow-400"
  else str "text-gray-400".

(** *** Rendering of the findings *)

Definition cbind {A B} (c : completion A) (k : A -> completion B) : completion B :=
  match c with
  | Normal a => k a
  | Throw e => Throw e
  end.

(** [items.map((result, index) => f(result, index))] *)
Fixpoint mapi {A} (f : value -> nat -> completion A) (items : list value) (index : nat)
    : completion (list A) :=
  match items with
  | [] => Normal []
  | result :: rest =>
      cbind (f result index) (fun a =>
      cbind (mapi f rest (S index)) (fun l => Normal (a :: l)))
  end.

(** One row of the port table, lines 488-500: the key, the three cells and
    the class of the state cell. *)
Record NmapRow : Type := {
  rowKey : nat;
  portCell : value;
  stateClass : jsstring;
  stateCell : value;
  serviceCell : value
}.

Definition renderNmapRow (result : value) (index : nat) : completion NmapRow :=
  cbind (getProp result (str "port")) (fun port =>
  cbind (getProp result (str "state")) (fun state =>
  cbind (getProp result (str "service")) (fun service =>
  Normal {| rowKey := index; portCell := port;
            stateClass := getPortStateColor (js_or state (VStr (str "")));
            stateCell := state; serviceCell := service |}))).

(** The rows that [scanResults.map] of lines 487-501 makes for an array of
    findings: what the callback returns for each, before React looks at
    the cells. *)
Definition renderNmapRows (items : list value) : completion (list NmapRow) :=
  mapi renderNmapRow items 0.

(** The three cells of a row are children of their [td]. *)
Definition validRow (row : NmapRow) : bool :=
  validChild (portCell row) && validChild (stateCell row) &&
  validChild (serviceCell row).

(** The body of the port table as React shows it: the rows of the
    callback, once React has accepted every cell as a child. *)
Definition portTable (items : list value) : completion (list NmapRow) :=
  cbind (renderNmapRows items) (fun rows =>
  if forallb validRow rows then Normal rows else Throw InvalidChild).

(** The class of the severity badge of a web-vulnerability card, line 523:
    [getSeverityColor(result.severity || '')]. *)
Definition severityBadgeClass (result : value) : completion jsstring :=
  cbind (getProp result (str "severity")) (fun severity =>
  Normal (getSeverityColor (js_or severity (VStr (str ""))))).

(** *** The PDF report, lines 173-258

    The calls made on the [jsPDF] document, in order.  A text is kept as
    the pieces of its template literal; [toUpperCase] and [toLocaleString]
    are left to the platform. *)

Inductive pdfPiece : Type :=
| Chars (s : jsstring)              (* literal characters *)
| Shown (v : value)                 (* an interpolated value *)
| UpperCase (s : jsstring)          (* s.toUpperCase() *)
| LocaleString (timestamp : Z).     (* date.toLocaleString() *)

Inductive pdfContent : Type :=
| OneLine (t : list pdfPiece)
| Lines (l : list jsstring).        (* what splitTextToSize returned *)

Inductive pdfOp : Type :=
| SetFontSize (size : Z)
| Text (content : pdfContent) (x y : Z)
| AddPage
| Save (fileName : list pdfPiece).

(** Line 185. *)
Definition margin : Z := 20.

(** Lines 188-209: title, scan info and the heading of the results; the
    next line is at 100. *)
Definition reportHeader (info : LastScanInfo.t) (backendConnected : bool) : list pdfOp :=
  [ SetFontSize 20;
    Text (OneLine [Chars (str "SecureScan Report")]) margin margin;
    SetFontSize 12;
    Text (OneLine [Chars (str "Target: "); Shown (VStr (LastScanInfo.target info))])
         margin (margin + 15);
    Text (OneLine [Chars (str "Scan Type: "); UpperCase (LastScanInfo.type info)])
         margin (margin + 15 + 10);
    Text (OneLine [Chars (str "Timestamp: "); LocaleString (LastScanInfo.timestamp info)])
         margin (margin + 15 + 10 + 10);
    Text (OneLine [Chars (str "Backend Status: ");
                   Chars (if backendConnected then str "Connected" else str "Demo Mode")])
         margin (margin + 15 + 10 + 10 + 10);
    SetFontSize 16;
    Text (OneLine [Chars (str "Scan Results:")]) margin (margin + 15 + 10 + 10 + 10 + 20);
    SetFontSize 10 ]%Z.

Definition headerEnd : Z := (margin + 15 + 10 + 10 + 10 + 20 + 15)%Z.

(** [${result.k || 'N/A'}]: the field is read, and what is shown is
    converted to a string. *)
Definition field (result : value) (k : string) : completion value :=
  cbind (getProp result (str k)) (fun v => interpolated (js_or v (VStr (str "N/A")))).

(** [`Label: ${...}`] *)
Definition labelled (label : string) (shown : value) : pdfContent :=
  OneLine [Chars (str label); Shown shown].

(** The body of the [forEach] of lines 210-248 for one finding: the calls
    it makes and the [yPosition] it leaves.  [splitTextToSize] is the
    method of the document, at the width of line 234. *)
Definition reportFinding (splitTextToSize : value -> completion (list jsstring))
    (scanType : jsstring) (result : value) (index : nat) (yPosition : Z)
    : completion (list pdfOp * Z) :=
  let page := if (250 <? yPosition)%Z then [AddPage] else [] in
  let y := if (250 <? yPosition)%Z then margin else yPosition in
  let number :=
    Text (OneLine [Shown (VNum (Z.of_nat index + 1)); Chars (str ".")]) margin y in
  if jsstring_eqb scanType (str "nmap") then
    cbind (field result "port") (fun port =>
    cbind (field result "state") (fun state =>
    cbind (field result "service") (fun service =>
    Normal (page ++
            [ number;
              Text (labelled "Port: " port) (margin + 10) y;
              Text (labelled "State: " state) (margin + 10) (y + 8);
              Text (labelled "Service: " service) (margin + 10) (y + 8 + 8) ],
            y + 8 + 8 + 10))))%Z
  else if jsstring_eqb scanType (str "nuclei") then
    cbind (field result "title") (fun title =>
    cbind (field result "severity") (fun severity =>
    cbind (field result "url") (fun url =>
    cbind (getProp result (str "description")) (fun description =>
    cbind (splitTextToSize (js_or description (VStr (str "N/A")))) (fun splitDescription =>
    Normal (page ++
            [ number;
              Text (labelled "Title: " title) (margin + 10) y;
              Text (labelled "Severity: " severity) (margin + 10) (y + 8);
              Text (labelled "URL: " url) (margin + 10) (y + 8 + 8);
              Text (Lines splitDescription) (margin + 10) (y + 8 + 8 + 8) ],
            y + 8 + 8 + 8 + Z.of_nat (List.length splitDescription) * 5 + 10))))))%Z
  else if jsstring_eqb scanType (str "nikto") then
    cbind (field result "endpoint") (fun endpoint =>
    cbind (getProp result (str "description")) (fun description =>
    cbind (splitTextToSize (js_or description (VStr (str "N/A")))) (fun splitDescription =>
    Normal (page ++
            [ number;
              Text (labelled "Endpoint: " endpoint) (margin + 10) y;
              Text (Lines splitDescription) (margin + 10) (y + 8) ],
            y + 8 + Z.of_nat (List.length splitDescription) * 5 + 10))))%Z
  else Normal (page ++ [number], y + 10)%Z.

(** [scanResults.forEach((result, index) => ...)] with its [yPosition]. *)
Fixpoint forEachFinding (splitTextToSize : value -> completion (list jsstring))
    (scanType : jsstring) (items : list value) (index : nat) (yPosition : Z)
    : completion (list pdfOp * Z) :=
  match items with
  | [] => Normal ([], yPosition)
  | result :: rest =>
      cbind (reportFinding splitTextToSize scanType result index yPosition) (fun one =>
      cbind (forEachFinding splitTextToSize scanType rest (S index) (snd one)) (fun more =>
      Normal (fst one ++ fst more, snd more)))
  end.

Definition noDataToast : ToastArgs := {|
  title := str "No data to export";
  description := [Lit (str "Please run a scan first")];
  variant := Some (str "destructive")
|}.

Definition pdfToast : ToastArgs := {|
  title := str "PDF downloaded";
  description := [Lit (str "Scan report has been exported as PDF")];
  variant := None
|}.

(** [length === 0] *)
Definition isZero (v : value) : bool :=
  match v with
  | VNum n => (n =? 0)%Z
  | _ => false
  end.

(** Line 251. *)
Definition reportName (scanType : jsstring) (info : LastScanInfo.t) (now : Z)
    : list pdfPiece :=
  [ Chars (str "securescan-report-"); Shown (VStr scanType); Chars (str "-");
    Shown (VStr (LastScanInfo.target info)); Chars (str "-"); Shown (VNum now);
    Chars (str ".pdf") ].

(** Lines 173-258.  The value is the list of the calls made on the document
    up to [pdf.save]; it is empty when nothing is exported.  [now] is what
    [Date.now()] gives. *)
Definition downloadPDF (splitTextToSize : value -> completion (list jsstring))
    (now : Z) : M State (list pdfOp) :=
  lastScanInfo <- gets lastScanInfo ;;
  scanResults <- gets scanResults ;;
  scanType <- gets scanType ;;
  backendConnected <- gets backendConnected ;;
  match lastScanInfo with
  | None => toast noDataToast ;; ret []
  | Some info =>
      length <- lift (getProp scanResults (str "length")) ;;
      if isZero length then toast noDataToast ;; ret []
      else
        match scanResults with
        | VArr items =>
            body <- lift (forEachFinding splitTextToSize scanType items 0 headerEnd) ;;
            toast pdfToast ;;
            ret (reportHeader info backendConnected ++ fst body ++
                 [Save (reportName scanType info now)])
        | _ => throw (TypeError (str "forEach"))
        end
  end.

End Index.

(** ** The earlier copy of the component, lines 591-1000 *)

Module Index2.

Module LastScanInfo.
Record t : Type := {
  type : jsstring;
  target : jsstring;
  timestamp : Z
}.
End LastScanInfo.

Record State : Type := {
  target : jsstring;
  scanType : jsstring;
  isScanning : bool;
  scanResults : value;
  lastScanInfo : option LastScanInfo.t
}.

Definition setIsScanning (v : bool) : M State unit :=
  modify (fun s => {| target := target s; scanType := scanType s;
                      isScanning := v; scanResults := scanResults s;
                      lastScanInfo := lastScanInfo s |}).

Definition setScanResults (v : value) : M State unit :=
  modify (fun s => {| target := target s; scanType := scanType s;
                      isScanning := isScanning s; scanResults := v;
                      lastScanInfo := lastScanInfo s |}).

Definition setLastScanInfo (v : option LastScanInfo.t) : M State unit :=
  modify (fun s => {| target := target s; scanType := scanType s;
                      isScanning := isScanning s; scanResults := scanResults s;
                      lastScanInfo := v |}).

(** Line 578. *)
Definition BACKEND_URL : jsstring := str "http://localhost:5000".

(** The options of the select of this copy, lines 793-795. *)
Definition scanTypeOptions : list jsstring :=
  [str "nmap"; str "nuclei"; str "nikto"].

(** Lines 642-690 repeat lines 99-147 character for character. *)
Definition generateDemoResults (type : jsstring) : list value :=
  Index.generateDemoResults type.

Local Open Scope js_scope.

(** The request of lines 605-614. *)
Definition scanRequest (target scanType : jsstring) : RequestInit := {|
  method := str "POST";
  headers := [(str "Content-Type", str "application/json")];
  body := VObj [(str "target", VStr (trim target)); (str "type", VStr scanType)];
  signal := false
|}.

(** Lines 598-640. *)
Definition handleScan (outcome : FetchOutcome) (now : Z) : M State unit :=
  target <- gets target ;;
  scanType <- gets scanType ;;
  if negb (truthy (VStr (trim target))) then ret tt
  else
    setIsScanning true ;;
    setScanResults (VArr []) ;;
    try_catch_finally
      (response <- fetch outcome (BACKEND_URL ++ str "/scan")
                         (scanRequest target scanType) ;;
       (if negb (ok response)
        then throw (Error [Lit (str "HTTP error! status: ");
                           Interp (VNum (status response))])
        else ret tt) ;;
       data <- lift (json response) ;;
       result <- lift (getProp data (str "result")) ;;
       setScanResults (js_or result (VArr [])) ;;
       setLastScanInfo (Some {| LastScanInfo.type := scanType;
                                LastScanInfo.target := trim target;
                                LastScanInfo.timestamp := now |}))
      (fun error =>
         emit (ConsoleError (str "Scan failed:") error) ;;
         let demoResults := generateDemoResults scanType in
         setScanResults (VArr demoResults) ;;
         setLastScanInfo (Some {| LastScanInfo.type := scanType;
                                  LastScanInfo.target := trim target;
                                  LastScanInfo.timestamp := now |}))
      (setIsScanning false).

End Index2.

(** ** What the specification speaks of

    Definitions that follow the words of the specification, for comparison
    with the component. *)

Module Spec.

(** The shell metacharacters the specification names: [;], [|], the
    backquote and [$]. *)
Definition isShellMetachar (c : N) : bool :=
  (c =? 59) || (c =? 124) || (c =? 96) || (c =? 36).

(** A character of [[A-Za-z0-9.:-]]. *)
Definition isAllowedChar (c : N) : bool :=
  ((65 <=? c) && (c <=? 90)) || ((97 <=? c) && (c <=? 122)) ||
  ((48 <=? c) && (c <=? 57)) || (c =? 46) || (c =? 58) || (c =? 45).

Definition isUpper (c : N) : bool := (65 <=? c) && (c <=? 90).

Definition toLower (c : N) : N := if isUpper c then c + 32 else c.

(** "Target string after normalization (trimmed, lower-cased host)". *)
Definition normalize (raw : jsstring) : jsstring := map toLower (trim raw).

(** The scan kinds and the fields of the finding of each kind (section 3 of
    the specification). *)
Inductive scanKind : Type := PortScan | WebVulnScan | MisconfigScan.

Definition kindOfType (type : jsstring) : option scanKind :=
  if jsstring_eqb type (str "nmap") then Some PortScan
  else if jsstring_eqb type (str "nuclei") then Some WebVulnScan
  else if jsstring_eqb type (str "nikto") then Some MisconfigScan
  else None.

Definition fieldsOf (k : scanKind) : list jsstring :=
  match k with
  | PortScan => [str "port"; str "state"; str "service"]
  | WebVulnScan => [str "title"; str "severity"; str "url"; str "description"]
  | MisconfigScan => [str "endpoint"; str "description"]
  end.

(** The own properties of a finding. *)
Definition populated (v : value) : list jsstring :=
  match v with
  | VObj props => map fst props
  | _ => []
  end.

(** "Only the fields of kind [k] are populated". *)
Definition onlyFieldsOf (k : scanKind) (v : value) : bool :=
  match v with
  | VObj props =>
      forallb (fun kv => existsb (jsstring_eqb (fst kv)) (fieldsOf k)) props
  | _ => false
  end.

End Spec.

(** The [ScanResult] interface of lines 12-21: eight optional fields, each
    a string when present, [severity] one of four literals. *)
Definition optionalString (k : string) (props : list (jsstring * value)) : bool :=
  match lookup (str k) props with
  | None => true
  | Some (VStr _) => true
  | Some _ => false
  end.

Definition conformsScanResult (v : value) : bool :=
  match v with
  | VObj props =>
      optionalString "port" props && optionalString "state" props &&
      optionalString "service" props &&
      match lookup (str "severity") props with
      | None => true
      | Some s => is_str s "low" || is_str s "medium" || is_str s "high" ||
                  is_str s "critical"
      end &&
      optionalString "url" props && optionalString "description" props &&
      optionalString "endpoint" props && optionalString "title" props
  | _ => false
  end.

(** What the [try] block of [handleScan] throws on a given outcome of the
    request up to the reading of [result], if anything: the rejection of
    [fetch], the [Error] of a status that is not OK, the rejection of
    [response.json()], or the [TypeError] of reading [result] on [null].
    Both copies throw these; the first copy can throw once more, in the
    template of its toast ([toastThrows]). *)
Definition thrownBy (outcome : FetchOutcome) : option exn :=
  match outcome with
  | Rejected e => Some e
  | Responded r =>
      if negb (ok r)
      then Some (Error [Lit (str "HTTP error! status: "); Interp (VNum (status r))])
      else match json r with
           | Throw e => Some e
           | Normal data =>
               match getProp data (str "result") with
               | Throw e => Some e
               | Normal _ => None
               end
           end
  end.

(** The failures the specification lists: a network error or an abort
    (the request rejects), or a status that is not OK. *)
Definition backendCallFails (outcome : FetchOutcome) : bool :=
  match outcome with
  | Rejected _ => true
  | Responded r => negb (ok r)
  end.

(** What became of a run: its completion, the state and the log it left. *)
Definition completionOf {S A} (r : completion A * (S * list effect)) : completion A :=
  fst r.
Definition stateOf {S A} (r : completion A * (S * list effect)) : S :=
  fst (snd r).
Definition logOf {S A} (r : completion A * (S * list effect)) : list effect :=
  snd (snd r).

(** What the [catch] block of the component leaves in the state. *)
Definition demoState (s : Index.State) (now : Z) : Index.State := {|
  Index.target := Index.target s;
  Index.scanType := Index.scanType s;
  Index.isScanning := false;
  Index.scanResults := VArr (Index.generateDemoResults (Index.scanType s));
  Index.lastScanInfo :=
    Some {| Index.LastScanInfo.type := Index.scanType s;
            Index.LastScanInfo.target := trim (Index.target s);
            Index.LastScanInfo.timestamp := now |};
  Index.backendConnected := false
|}.

(** What the end of the [try] block leaves in the state when the response
    carried [result]. *)
Definition doneState (s : Index.State) (result : value) (now : Z) : Index.State := {|
  Index.target := Index.target s;
  Index.scanType := Index.scanType s;
  Index.isScanning := false;
  Index.scanResults := js_or result (VArr []);
  Index.lastScanInfo :=
    Some {| Index.LastScanInfo.type := Index.scanType s;
            Index.LastScanInfo.target := trim (Index.target s);
            Index.LastScanInfo.timestamp := now |};
  Index.backendConnected := true
|}.

(** The two toasts of [handleScan]. *)
Definition demoToast : ToastArgs := {|
  title := str "Backend unavailable";
  description := [Lit (str "Using demo data. Connect your backend for real scans.")];
  variant := Some (str "destructive")
|}.

Definition doneToast (result : value) : ToastArgs := {|
  title := str "Scan completed";
  description :=
    [Lit (str "Found ");
     Interp (match getPropOpt result (str "length") with
             | Normal length => js_or length (VNum 0)
             | Throw _ => VNum 0
             end);
     Lit (str " results")];
  variant := None
|}.

(** What the toast of a completed scan counts: [data.result?.length || 0]. *)
Definition foundCount (result : value) : value :=
  match getPropOpt result (str "length") with
  | Normal length => js_or length (VNum 0)
  | Throw _ => VNum 0
  end.


(** A finding whose fields can all be written in a template literal. *)
Definition printable (result : value) : bool :=
  match result with
  | VObj props => forallb (fun kv => stringable (snd kv)) props
  | _ => true
  end.

(** The effects of the [try] block up to the point where it throws. *)
Definition attempt (NODE_ENV : jsstring) (s : Index.State) (outcome : FetchOutcome)
    : list effect :=
  [SetTimeout 10000;
   Fetch (Index.BACKEND_URL NODE_ENV ++ str "/scan")
         (Index.scanRequest (Index.target s) (Index.scanType s))] ++
  match outcome with
  | Rejected _ => []
  | Responded _ => [ClearTimeout]
  end.

(** The same for the earlier copy. *)
Definition demoState2 (s : Index2.State) (now : Z) : Index2.State := {|
  Index2.target := Index2.target s;
  Index2.scanType := Index2.scanType s;
  Index2.isScanning := false;
  Index2.scanResults := VArr (Index2.generateDemoResults (Index2.scanType s));
  Index2.lastScanInfo :=
    Some {| Index2.LastScanInfo.type := Index2.scanType s;
            Index2.LastScanInfo.target := trim (Index2.target s);
            Index2.LastScanInfo.timestamp := now |}
|}.

Definition doneState2 (s : Index2.State) (result : value) (now : Z) : Index2.State := {|
  Index2.target := Index2.target s;
  Index2.scanType := Index2.scanType s;
  Index2.isScanning := false;
  Index2.scanResults := js_or result (VArr []);
  Index2.lastScanInfo :=
    Some {| Index2.LastScanInfo.type := Index2.scanType s;
            Index2.LastScanInfo.target := trim (Index2.target s);
            Index2.LastScanInfo.timestamp := now |}
|}.

(** ** Sample inputs *)

(** The component after the user typed [raw] and chose [type]. *)
Definition typed (raw type : string) : Index.State := {|
  Index.target := str raw;
  Index.scanType := str type;
  Index.isScanning := false;
  Index.scanResults := VArr [];
  Index.lastScanInfo := None;
  Index.backendConnected := false
|}.

Definition typed2 (raw type : string) : Index2.State := {|
  Index2.target := str raw;
  Index2.scanType := str type;
  Index2.isScanning := false;
  Index2.scanResults := VArr [];
  Index2.lastScanInfo := None
|}.

(** A 200 response whose body is the JSON object [props]. *)
Definition ok200 (props : list (jsstring * value)) : FetchOutcome :=
  Responded {| status := 200; json := Normal (VObj props) |}.

Definition development : jsstring := str "development".

(** A session: the user types a target, picks the web-vulnerability scan
    and is about to click. *)
Definition sampleEvents : list Index.event :=
  [Index.ChangeTarget (str " example.com "); Index.ChangeScanType (str "nuclei")].

Definition sampleWorld : Index.world :=
  ({| Index.target := str " example.com ";
      Index.scanType := str "nuclei";
      Index.isScanning := false;
      Index.scanResults := VArr [];
      Index.lastScanInfo := None;
      Index.backendConnected := false |}, []).

Definition sampleFinding : value :=
  VObj [(str "title", VStr (str "Exposed .git directory"));
        (str "severity", VStr (str "high"));
        (str "url", VStr (str "http://example.com/.git/"));
        (str "description", VStr (str "Repository metadata is readable"))].

(** The two findings of the end-to-end case of the specification, as the
    component's [ScanResult] has them. *)
Definition twoPorts : list value :=
  [VObj [(str "port", VStr (str "22")); (str "state", VStr (str "open"));
         (str "service", VStr (str "ssh"))];
   VObj [(str "port", VStr (str "80")); (str "state", VStr (str "open"));
         (str "service", VStr (str "http"))]].

(** The classes of the [low] and of the [default] branch of
    [getSeverityColor]. *)
Definition lowClass : jsstring := str "bg-blue-500/20 text-blue-300 border-blue-500/30".
Definition defaultClass : jsstring := str "bg-gray-500/20 text-gray-300 border-gray-500/30".

(** ** Readings of a state, a log and a report *)

(** [null] or [undefined]. *)
Definition nullish (v : value) : bool :=
  match v with
  | VUndefined | VNull => true
  | _ => false
  end.

(** A finding whose port, state and service React accepts as children. *)
Definition validCells (result : value) : bool :=
  forallb (fun k => match getProp result (str k) with
                    | Normal v => validChild v
                    | Throw _ => false
                    end)
          ["port"; "state"; "service"]%string.


(** The pages added to a report. *)
Definition pageBreaks (ops : list Index.pdfOp) : nat :=
  List.length (filter (fun op => match op with Index.AddPage => true | _ => false end) ops).

(** The heights at which a report writes. *)
Definition textYs (ops : list Index.pdfOp) : list Z :=
  flat_map (fun op => match op with Index.Text _ _ y => [y] | _ => [] end) ops.

(** The heights of the numbers that open the findings ([`${index + 1}.`]). *)
Definition numberYs (ops : list Index.pdfOp) : list Z :=
  flat_map (fun op => match op with
                      | Index.Text (Index.OneLine (Index.Shown (VNum _) :: _)) _ y => [y]
                      | _ => []
                      end) ops.

(** The fields of a finding that the report of a scan type writes in a
    template literal (lines 220-238); the description goes to
    [splitTextToSize] as it is. *)
Definition printedFields (scanType : jsstring) : list string :=
  if jsstring_eqb scanType (str "nmap") then ["port"; "state"; "service"]%string
  else if jsstring_eqb scanType (str "nuclei") then ["title"; "severity"; "url"]%string
  else if jsstring_eqb scanType (str "nikto") then ["endpoint"]%string
  else [].

(** The component after a port scan whose answer held a port that cannot
    be converted to a string: [{"port": {"toString": 0}}]. *)
Definition afterOddFinding : Index.State := {|
  Index.target := str "example.com";
  Index.scanType := str "nmap";
  Index.isScanning := false;
  Index.scanResults := VArr [VObj [(str "port", VObj [(str "toString", VNum 0)])]];
  Index.lastScanInfo :=
    Some {| Index.LastScanInfo.type := str "nmap";
            Index.LastScanInfo.target := str "example.com";
            Index.LastScanInfo.timestamp := 1700000000000 |};
  Index.backendConnected := true
|}.

(** The component after a web scan whose answer held a [null] finding. *)
Definition afterNullFinding : Index.State := {|
  Index.target := str "example.com";
  Index.scanType := str "nuclei";
  Index.isScanning := false;
  Index.scanResults := VArr [sampleFinding; VNull];
  Index.lastScanInfo :=
    Some {| Index.LastScanInfo.type := str "nuclei";
            Index.LastScanInfo.target := str "example.com";
            Index.LastScanInfo.timestamp := 1700000000000 |};
  Index.backendConnected := true
|}.

(** Where a finding starts, given where the one before it ended. *)
Definition startOf (yPosition : Z) : Z :=
  if (250 <? yPosition)%Z then Index.margin else yPosition.

(** The capacity of what is left of a page: how many port findings still
    fit when the next would start at [y]. *)
Definition room (y : Z) : Z := if (250 <? y)%Z then 0 else ((250 - y) / 26 + 1)%Z.

(** A [splitTextToSize] that never throws: one line per 80 code units of a
    string, no line for anything else. *)
Fixpoint chunks (fuel : nat) (s : jsstring) : list jsstring :=
  match fuel with
  | O => []
  | S fuel' =>
      match s with
      | [] => []
      | _ => firstn 80 s :: chunks fuel' (skipn 80 s)
      end
  end.

Definition splitEvery80 (text : value) : completion (list jsstring) :=
  match text with
  | VStr s => Normal (chunks (List.length s) s)
  | _ => Normal []
  end.

(** The component after a port scan answered by the demo data. *)
Definition afterDemoScan : Index.State := {|
  Index.target := str "example.com";
  Index.scanType := str "nmap";
  Index.isScanning := false;
  Index.scanResults := VArr (Index.generateDemoResults (str "nmap"));
  Index.lastScanInfo :=
    Some {| Index.LastScanInfo.type := str "nmap";
            Index.LastScanInfo.target := str "example.com";
            Index.LastScanInfo.timestamp := 1700000000000 |};
  Index.backendConnected := false
|}.

(** What holds of the component between two events: it is not scanning,
    the scan type is an option of the select, every request was answered
    by one toast, [scanResults] is never [null] or [undefined], and
    [lastScanInfo] tells of the last request. *)
Definition consistent (NODE_ENV : jsstring) (w : Index.world) : Prop :=
  Index.isScanning (fst w) = false /\
  In (Index.scanType (fst w)) Index.scanTypeOptions /\
  List.length (toasts (snd w)) = List.length (requests (snd w)) /\
  truthy (Index.scanResults (fst w)) = true /\
  match Index.lastScanInfo (fst w) with
  | None =>
      requests (snd w) = [] /\
      Index.scanResults (fst w) = VArr [] /\
      Index.backendConnected (fst w) = false
  | Some info =>
      In (Index.LastScanInfo.type info) Index.scanTypeOptions /\
      trim (Index.LastScanInfo.target info) = Index.LastScanInfo.target info /\
      Index.LastScanInfo.target info <> [] /\
      (exists earlier,
          requests (snd w) =
          earlier ++
          [(Index.BACKEND_URL NODE_ENV ++ str "/scan",
            Index.scanRequest (Index.LastScanInfo.target info)
                              (Index.LastScanInfo.type info))]) /\
      (Index.backendConnected (fst w) = false ->
       Index.scanResults (fst w) =
       VArr (Index.generateDemoResults (Index.LastScanInfo.type info)))
  end.

(** A session that ends with a scan the backend did not answer. *)
Definition sampleSession : list Index.event :=
  sampleEvents ++ [Index.ClickScan (Rejected AbortError) 9%Z].

Definition sampleSessionEnd : Index.world :=
  snd (Index.handleScan development (Rejected AbortError) 9%Z sampleWorld).

(** ** Proof tools *)

Arguments str : simpl never.
Arguments trim : simpl never.
Arguments Index.generateDemoResults : simpl never.
Arguments Index.BACKEND_URL : simpl never.
Arguments Index.scanRequest : simpl never.
Arguments Index2.scanRequest : simpl never.
Arguments Index2.BACKEND_URL : simpl never.

(** Runs the monad as far as the data at hand decides. *)
Ltac run :=
  cbv beta iota zeta delta
    [Index.handleScan Index2.handleScan try_catch_finally bind fetch emit ret
     throw lift toast modify gets negb
     Index.setIsScanning Index.setScanResults Index.setLastScanInfo
     Index.setBackendConnected Index.setTarget Index.setScanType
     Index2.setIsScanning Index2.setScanResults Index2.setLastScanInfo];
  cbn [fst snd status json
       Index.target Index.scanType Index.isScanning Index.scanResults
       Index.lastScanInfo Index.backendConnected
       Index2.target Index2.scanType Index2.isScanning Index2.scanResults
       Index2.lastScanInfo].

Ltac flatten_log := rewrite <- ?app_assoc; cbn [app]; try reflexivity.

(** ** Trimming *)

Lemma trimStart_suffix (s : jsstring) :
  exists w, s = w ++ trimStart s /\ forallb isWhiteSpace w = true.
Proof.
  induction s as [|c s IH]; simpl.
  - exists []. auto.
  - destruct (isWhiteSpace c) eqn:Hc.
    + destruct IH as [w [Hs Hw]]. exists (c :: w). simpl. rewrite Hc, <- Hs. auto.
    + exists []. auto.
Qed.

Lemma trimStart_head (s : jsstring) : headNotSpace (trimStart s).
Proof.
  induction s as [|c s IH]; simpl; auto.
  destruct (isWhiteSpace c) eqn:Hc; simpl; auto.
Qed.

Lemma trimStart_fixed (s : jsstring) : headNotSpace s -> trimStart s = s.
Proof.
  destruct s as [|c s]; simpl; auto. intros ->. reflexivity.
Qed.

Lemma headNotSpace_prefix (a b : jsstring) : headNotSpace (a ++ b) -> headNotSpace a.
Proof. destruct a; simpl; auto. Qed.

Lemma trimEnd_prefix (s : jsstring) :
  exists w, s = trimEnd s ++ w /\ forallb isWhiteSpace w = true.
Proof.
  unfold trimEnd. destruct (trimStart_suffix (rev s)) as [w [Hs Hw]].
  exists (rev w). split.
  - rewrite <- rev_app_distr, <- Hs, rev_involutive. reflexivity.
  - rewrite forallb_forall in *. intros x Hx. apply Hw. now apply in_rev.
Qed.

Lemma trim_head (s : jsstring) : headNotSpace (trim s).
Proof.
  unfold trim. destruct (trimEnd_prefix (trimStart s)) as [w [Hs _]].
  apply headNotSpace_prefix with (b := w). rewrite <- Hs. apply trimStart_head.
Qed.

Lemma trim_last (s : jsstring) : headNotSpace (rev (trim s)).
Proof.
  unfold trim, trimEnd. rewrite rev_involutive. apply trimStart_head.
Qed.

Lemma trim_fixed (s : jsstring) :
  headNotSpace s -> headNotSpace (rev s) -> trim s = s.
Proof.
  intros H1 H2. unfold trim, trimEnd.
  rewrite (trimStart_fixed s H1), (trimStart_fixed (rev s) H2).
  apply rev_involutive.
Qed.

Lemma trim_idempotent (s : jsstring) : trim (trim s) = trim s.
Proof. apply trim_fixed; [apply trim_head | apply trim_last]. Qed.

Lemma trimStart_nil_iff (s : jsstring) :
  trimStart s = [] <-> forallb isWhiteSpace s = true.
Proof.
  induction s as [|c s IH]; simpl.
  - tauto.
  - destruct (isWhiteSpace c); simpl; [exact IH | split; discriminate].
Qed.

Lemma forallb_rev {A} (f : A -> bool) (l : list A) :
  forallb f (rev l) = forallb f l.
Proof.
  induction l as [|a l IH]; simpl; auto.
  rewrite forallb_app, IH. simpl. rewrite andb_true_r. apply andb_comm.
Qed.

Lemma trim_nil_iff (s : jsstring) :
  trim s = [] <-> forallb isWhiteSpace s = true.
Proof.
  unfold trim, trimEnd. split.
  - intros H. apply (f_equal (@rev N)) in H. rewrite rev_involutive in H. simpl in H.
    apply trimStart_nil_iff in H. rewrite forallb_rev in H.
    pose proof (trimStart_head s) as Hh.
    destruct (trimStart s) as [|c t] eqn:Ht.
    + now apply trimStart_nil_iff.
    + simpl in H, Hh. rewrite Hh in H. discriminate.
  - intros H. apply trimStart_nil_iff in H. rewrite H. reflexivity.
Qed.

Lemma trim_truthy (s : jsstring) :
  truthy (VStr (trim s)) = negb (forallb isWhiteSpace s).
Proof.
  destruct (forallb isWhiteSpace s) eqn:H.
  - apply trim_nil_iff in H. rewrite H. reflexivity.
  - destruct (trim s) eqn:Ht; auto.
    apply trim_nil_iff in Ht. congruence.
Qed.

(** ** The three ways [handleScan] ends *)

(** Enters the handler past its guard, [H] telling whether the target is
    blank. *)
Ltac enter_handler H := run; rewrite trim_truthy, H; run.

(** A blank target: the handler returns at once and touches nothing. *)
Lemma handleScan_blank NODE_ENV outcome now (s : Index.State) log :
  forallb isWhiteSpace (Index.target s) = true ->
  Index.handleScan NODE_ENV outcome now (s, log) = (Normal tt, (s, log)).
Proof. intros H. enter_handler H. reflexivity. Qed.

(** The [try] block throws: the [catch] block logs the error, toasts and
    installs the demo data; the handler completes normally. *)
Lemma handleScan_caught NODE_ENV outcome now (s : Index.State) log e :
  forallb isWhiteSpace (Index.target s) = false ->
  thrownBy outcome = Some e ->
  Index.handleScan NODE_ENV outcome now (s, log) =
  (Normal tt,
   (demoState s now,
    log ++ attempt NODE_ENV s outcome ++
    [ConsoleError (str "Scan failed:") e; Toast demoToast])).
Proof.
  intros H He. enter_handler H. unfold demoState, attempt.
  destruct outcome as [e'|[st js]]; cbn [thrownBy status json] in He; run.
  - injection He as ->. flatten_log.
  - destruct (ok _); run.
    + destruct js as [data|e']; run.
      * destruct (getProp data (str "result")); [discriminate|].
        run. injection He as ->. flatten_log.
      * injection He as ->. flatten_log.
    + injection He as <-. flatten_log.
Qed.

(** The [try] block runs to its end: the results are those of the response
    (or the empty list), the backend counts as connected. *)
Lemma handleScan_done NODE_ENV now (s : Index.State) log r data result :
  forallb isWhiteSpace (Index.target s) = false ->
  ok r = true ->
  json r = Normal data ->
  getProp data (str "result") = Normal result ->
  stringable (foundCount result) = true ->
  Index.handleScan NODE_ENV (Responded r) now (s, log) =
  (Normal tt,
   (doneState s result now,
    log ++ attempt NODE_ENV s (Responded r) ++ [Toast (doneToast result)])).
Proof.
  intros H Hok Hjs Hres Hstr. enter_handler H.
  unfold doneState, attempt, doneToast, foundCount in *.
  rewrite Hok; run. rewrite Hjs; run. rewrite Hres; run.
  assert (Hlen : exists l, getPropOpt result (str "length") = Normal l).
  { destruct result; cbn; eauto. }
  destruct Hlen as [l Hl]. rewrite Hl in *. run.
  unfold interpolated. rewrite Hstr. run. flatten_log.
Qed.

(** The [try] block gets as far as its toast, and the count cannot be
    written in the template: the results of the response were stored, and
    the [catch] block replaces them by the demo data. *)
Lemma handleScan_late NODE_ENV now (s : Index.State) log r data result :
  forallb isWhiteSpace (Index.target s) = false ->
  ok r = true ->
  json r = Normal data ->
  getProp data (str "result") = Normal result ->
  stringable (foundCount result) = false ->
  Index.handleScan NODE_ENV (Responded r) now (s, log) =
  (Normal tt,
   (demoState s now,
    log ++ attempt NODE_ENV s (Responded r) ++
    [ConsoleError (str "Scan failed:") NotPrimitive; Toast demoToast])).
Proof.
  intros H Hok Hjs Hres Hstr. enter_handler H.
  unfold demoState, attempt, foundCount in *.
  rewrite Hok; run. rewrite Hjs; run. rewrite Hres; run.
  assert (Hlen : exists l, getPropOpt result (str "length") = Normal l).
  { destruct result; cbn; eauto. }
  destruct Hlen as [l Hl]. rewrite Hl in *. run.
  unfold interpolated. rewrite Hstr. run. flatten_log.
Qed.

(** The earlier copy ends the same three ways, without timer, toast or
    [backendConnected]. *)
Lemma handleScan2_blank outcome now (s : Index2.State) log :
  forallb isWhiteSpace (Index2.target s) = true ->
  Index2.handleScan outcome now (s, log) = (Normal tt, (s, log)).
Proof. intros H. enter_handler H. reflexivity. Qed.

Lemma handleScan2_caught outcome now (s : Index2.State) log e :
  forallb isWhiteSpace (Index2.target s) = false ->
  thrownBy outcome = Some e ->
  Index2.handleScan outcome now (s, log) =
  (Normal tt,
   (demoState2 s now,
    log ++ [Fetch (Index2.BACKEND_URL ++ str "/scan")
                  (Index2.scanRequest (Index2.target s) (Index2.scanType s));
            ConsoleError (str "Scan failed:") e])).
Proof.
  intros H He. enter_handler H. unfold demoState2.
  destruct outcome as [e'|[st js]]; cbn [thrownBy status json] in He; run.
  - injection He as ->. flatten_log.
  - destruct (ok _); run.
    + destruct js as [data|e']; run.
      * destruct (getProp data (str "result")); [discriminate|].
        run. injection He as ->. flatten_log.
      * injection He as ->. flatten_log.
    + injection He as <-. flatten_log.
Qed.

Lemma handleScan2_done now (s : Index2.State) log r data result :
  forallb isWhiteSpace (Index2.target s) = false ->
  ok r = true ->
  json r = Normal data ->
  getProp data (str "result") = Normal result ->
  Index2.handleScan (Responded r) now (s, log) =
  (Normal tt,
   (doneState2 s result now,
    log ++ [Fetch (Index2.BACKEND_URL ++ str "/scan")
                  (Index2.scanRequest (Index2.target s) (Index2.scanType s))])).
Proof.
  intros H Hok Hjs Hres. enter_handler H. unfold doneState2.
  rewrite Hok; run. rewrite Hjs; run. rewrite Hres; run. flatten_log.
Qed.

(** Every outcome either throws in the [try] block or carries a result. *)
Lemma thrownBy_None outcome :
  thrownBy outcome = None ->
  exists r data result,
    outcome = Responded r /\ ok r = true /\ json r = Normal data /\
    getProp data (str "result") = Normal result.
Proof.
  destruct outcome as [e|r]; cbn; [discriminate|].
  destruct (ok r) eqn:Hok; cbn; [|discriminate].
  destruct (json r) as [data|e] eqn:Hjs; [|discriminate].
  destruct (getProp data (str "result")) as [result|e] eqn:Hres; [|discriminate].
  intros _. exists r, data, result. auto.
Qed.

(** The two ways a scan of a target that is not blank ends in the first
    copy: in the [catch] block, with the demo data, or at the end of the
    [try] block, with the results of the response. *)
Lemma handleScan_ends NODE_ENV outcome now (s : Index.State) log :
  forallb isWhiteSpace (Index.target s) = false ->
  (exists e,
      Index.handleScan NODE_ENV outcome now (s, log) =
      (Normal tt,
       (demoState s now,
        log ++ attempt NODE_ENV s outcome ++
        [ConsoleError (str "Scan failed:") e; Toast demoToast]))) \/
  (exists r data result,
      outcome = Responded r /\ ok r = true /\ json r = Normal data /\
      getProp data (str "result") = Normal result /\
      stringable (foundCount result) = true /\
      Index.handleScan NODE_ENV outcome now (s, log) =
      (Normal tt,
       (doneState s result now,
        log ++ attempt NODE_ENV s outcome ++ [Toast (doneToast result)]))).
Proof.
  intros H. destruct (thrownBy outcome) as [e|] eqn:He.
  - left. exists e. now apply handleScan_caught.
  - destruct (thrownBy_None _ He) as (r & data & result & -> & Hok & Hjs & Hres).
    destruct (stringable (foundCount result)) eqn:Hstr.
    + right. exists r, data, result. repeat split; auto.
      now apply (handleScan_done _ _ _ _ _ data result).
    + left. exists NotPrimitive. now apply (handleScan_late _ _ _ _ _ data result).
Qed.

(** The count of an array, and of a response without [result], is a
    number. *)
Lemma foundCount_array (items : list value) :
  stringable (foundCount (VArr items)) = true.
Proof.
  unfold foundCount. cbn [getPropOpt getProp].
  replace (jsstring_eqb (str "length") (str "length")) with true by reflexivity.
  unfold js_or. destruct (truthy _); reflexivity.
Qed.

Lemma trim_nonempty (s : jsstring) :
  trim s <> [] -> forallb isWhiteSpace s = false.
Proof.
  intros H. destruct (forallb isWhiteSpace s) eqn:E; auto.
  apply trim_nil_iff in E. contradiction.
Qed.

(** However it ends, the handler completes normally, leaves the inputs as
    they were and is no longer scanning. *)
Lemma handleScan_frame NODE_ENV outcome now (s : Index.State) log :
  let r := Index.handleScan NODE_ENV outcome now (s, log) in
  completionOf r = Normal tt /\
  Index.target (stateOf r) = Index.target s /\
  Index.scanType (stateOf r) = Index.scanType s /\
  (Index.isScanning s = false -> Index.isScanning (stateOf r) = false).
Proof.
  cbv zeta. destruct (forallb isWhiteSpace (Index.target s)) eqn:H.
  - rewrite handleScan_blank by assumption. cbn. auto.
  - destruct (handleScan_ends NODE_ENV outcome now s log H)
      as [[e ->]|(r & data & result & _ & _ & _ & _ & _ & ->)]; cbn; auto.
Qed.

(** The scan type is always one of the three options, and no event leaves
    the component scanning. *)
Lemma dispatch_invariant NODE_ENV ev (w w' : Index.world) :
  Index.dispatch NODE_ENV ev w = Some w' ->
  In (Index.scanType (fst w)) Index.scanTypeOptions ->
  Index.isScanning (fst w) = false ->
  In (Index.scanType (fst w')) Index.scanTypeOptions /\
  Index.isScanning (fst w') = false.
Proof.
  destruct w as [s log]. destruct ev as [v|v|outcome now]; cbn [Index.dispatch fst].
  - intros Hd Hin Hsc. rewrite Hsc in Hd. injection Hd as <-. cbn. auto.
  - intros Hd Hin Hsc. rewrite Hsc in Hd.
    destruct (existsb (jsstring_eqb v) Index.scanTypeOptions) eqn:Hex; [|discriminate].
    injection Hd as <-. cbn. split; auto.
    apply existsb_exists in Hex. destruct Hex as (x & Hx & Heq).
    unfold jsstring_eqb in Heq. destruct (list_eq_dec N.eq_dec v x); [|discriminate].
    subst. exact Hx.
  - intros Hd Hin Hsc. destruct (Index.scanDisabled s); [discriminate|].
    injection Hd as <-.
    destruct (handleScan_frame NODE_ENV outcome now s log) as (_ & _ & Hty & Hsc').
    unfold stateOf in *. rewrite Hty. auto.
Qed.

Lemma run_invariant NODE_ENV evs (w w' : Index.world) :
  Index.run NODE_ENV evs w = Some w' ->
  In (Index.scanType (fst w)) Index.scanTypeOptions ->
  Index.isScanning (fst w) = false ->
  In (Index.scanType (fst w')) Index.scanTypeOptions /\
  Index.isScanning (fst w') = false.
Proof.
  revert w. induction evs as [|ev evs IH]; intros w; cbn.
  - intros H. injection H as <-. auto.
  - destruct (Index.dispatch NODE_ENV ev w) as [w1|] eqn:Hd; [|discriminate].
    intros Hr Hin Hsc.
    destruct (dispatch_invariant _ _ _ _ Hd Hin Hsc) as [Hin1 Hsc1].
    exact (IH w1 Hr Hin1 Hsc1).
Qed.

Lemma requests_app (a b : list effect) :
  requests (a ++ b) = requests a ++ requests b.
Proof. unfold requests. apply flat_map_app. Qed.

Lemma thrownBy_cases outcome :
  (exists e, thrownBy outcome = Some e) \/
  (exists r data result,
     outcome = Responded r /\ ok r = true /\ json r = Normal data /\
     getProp data (str "result") = Normal result).
Proof.
  destruct (thrownBy outcome) as [e|] eqn:He; [left; eauto|].
  right. now apply thrownBy_None.
Qed.

(** Whatever the [try] and [catch] blocks do, a [finally] block that
    resets [isScanning] leaves it reset. *)
Lemma finally_resets (body : M Index.State unit) handler w :
  Index.isScanning
    (stateOf (try_catch_finally body handler (Index.setIsScanning false) w)) = false.
Proof.
  unfold try_catch_finally, stateOf.
  destruct (body w) as [[a|e] w1].
  - destruct w1. reflexivity.
  - destruct (handler e w1) as [c2 [s2 l2]]. reflexivity.
Qed.

Lemma finally_resets2 (body : M Index2.State unit) handler w :
  Index2.isScanning
    (stateOf (try_catch_finally body handler (Index2.setIsScanning false) w)) = false.
Proof.
  unfold try_catch_finally, stateOf.
  destruct (body w) as [[a|e] w1].
  - destruct w1. reflexivity.
  - destruct (handler e w1) as [c2 [s2 l2]]. reflexivity.
Qed.

(** A target that is not blank goes out in exactly one request. *)
Lemma handleScan_requests NODE_ENV outcome now (s : Index.State) log :
  forallb isWhiteSpace (Index.target s) = false ->
  requests (logOf (Index.handleScan NODE_ENV outcome now (s, log))) =
  requests log ++
  [(Index.BACKEND_URL NODE_ENV ++ str "/scan",
    Index.scanRequest (Index.target s) (Index.scanType s))].
Proof.
  intros H.
  destruct (handleScan_ends NODE_ENV outcome now s log H)
    as [[e ->]|(r & data & result & _ & _ & _ & _ & _ & ->)];
    cbn [logOf snd]; rewrite !requests_app;
    destruct outcome; cbn; rewrite ?app_nil_r; reflexivity.
Qed.

(** Both ways of ending a scan record the same [lastScanInfo]. *)
Lemma handleScan_lastScanInfo NODE_ENV outcome now (s : Index.State) log :
  forallb isWhiteSpace (Index.target s) = false ->
  Index.lastScanInfo (stateOf (Index.handleScan NODE_ENV outcome now (s, log))) =
  Some {| Index.LastScanInfo.type := Index.scanType s;
          Index.LastScanInfo.target := trim (Index.target s);
          Index.LastScanInfo.timestamp := now |}.
Proof.
  intros H.
  destruct (handleScan_ends NODE_ENV outcome now s log H)
    as [[e ->]|(r & data & result & _ & _ & _ & _ & _ & ->)]; reflexivity.
Qed.

Lemma trim_within (s : jsstring) :
  exists a b, s = a ++ trim s ++ b.
Proof.
  destruct (trimStart_suffix s) as [a [Ha _]].
  destruct (trimEnd_prefix (trimStart s)) as [b [Hb _]].
  exists a, b. unfold trim. rewrite <- Hb. exact Ha.
Qed.

Lemma toLower_fixed (s : jsstring) :
  existsb Spec.isUpper s = false -> map Spec.toLower s = s.
Proof.
  induction s as [|c s IH]; cbn; auto.
  intros H. apply orb_false_iff in H. destruct H as [Hc Hs].
  unfold Spec.toLower at 1. rewrite Hc, (IH Hs). reflexivity.
Qed.

Lemma normalize_without_upper (s : jsstring) :
  existsb Spec.isUpper s = false -> Spec.normalize s = trim s.
Proof.
  intros H. unfold Spec.normalize. apply toLower_fixed.
  destruct (trim_within s) as (a & b & Hs). rewrite Hs in H.
  rewrite !existsb_app in H.
  apply orb_false_iff in H. destruct H as [_ H].
  apply orb_false_iff in H. tauto.
Qed.

(** The rows of the table follow the findings one for one, in order. *)
Lemma mapi_renderNmapRow items : forall index rows,
  Index.mapi Index.renderNmapRow items index = Normal rows ->
  map (fun row => Normal (Index.portCell row)) rows =
    map (fun result => getProp result (str "port")) items /\
  map Index.rowKey rows = seq index (List.length items).
Proof.
  induction items as [|result items IH]; intros index rows; cbn [Index.mapi].
  - intros H. injection H as <-. auto.
  - unfold Index.renderNmapRow at 1.
    destruct (getProp result (str "port")) as [port|e] eqn:Hp; cbn [Index.cbind];
      [|discriminate].
    destruct (getProp result (str "state")) as [state|e]; cbn [Index.cbind];
      [|discriminate].
    destruct (getProp result (str "service")) as [service|e]; cbn [Index.cbind];
      [|discriminate].
    destruct (Index.mapi Index.renderNmapRow items (S index)) as [l|e] eqn:Hl;
      cbn [Index.cbind]; [|discriminate].
    intros H. injection H as <-. destruct (IH _ _ Hl) as [H1 H2].
    cbn [map List.length seq Index.portCell Index.rowKey].
    rewrite H1, H2, Hp. auto.
Qed.

Lemma handleScan2_frame outcome now (s : Index2.State) log :
  let r := Index2.handleScan outcome now (s, log) in
  completionOf r = Normal tt /\
  (Index2.isScanning s = false \/ forallb isWhiteSpace (Index2.target s) = false ->
   Index2.isScanning (stateOf r) = false).
Proof.
  cbv zeta. destruct (forallb isWhiteSpace (Index2.target s)) eqn:H.
  - rewrite handleScan2_blank by assumption. cbn. split; auto.
    intros [H1|H1]; [exact H1|discriminate].
  - destruct (thrownBy_cases outcome)
      as [[e He]|(r & data & result & -> & Hok & Hjs & Hres)].
    + rewrite (handleScan2_caught _ _ _ _ e) by assumption. cbn. auto.
    + rewrite (handleScan2_done _ _ _ _ data result) by assumption. cbn. auto.
Qed.

(** ** The claims *)

(** C1. Whenever the backend call fails (the request rejects on a network
    error or on the abort of the timeout, or the status is not OK),
    [handleScan] puts [generateDemoResults(scanType)] in [scanResults] and
    records [lastScanInfo] with the scan type, the trimmed target and the
    time, exactly as a completed scan records it; for the three scan types
    of the interface the results are then not empty.  Both copies of the
    component do so, each for the scan types of its own select. *)
Theorem handleScan_failure_falls_back_to_demo_data :
  (forall NODE_ENV outcome now (s : Index.State) log,
      trim (Index.target s) <> [] ->
      backendCallFails outcome = true ->
      let r := Index.handleScan NODE_ENV outcome now (s, log) in
      completionOf r = Normal tt /\
      Index.scanResults (stateOf r) =
        VArr (Index.generateDemoResults (Index.scanType s)) /\
      Index.lastScanInfo (stateOf r) =
        Some {| Index.LastScanInfo.type := Index.scanType s;
                Index.LastScanInfo.target := trim (Index.target s);
                Index.LastScanInfo.timestamp := now |} /\
      (forall r', thrownBy (Responded r') = None ->
         Index.lastScanInfo
           (stateOf (Index.handleScan NODE_ENV (Responded r') now (s, log))) =
         Index.lastScanInfo (stateOf r)) /\
      (In (Index.scanType s) Index.scanTypeOptions ->
       Index.scanResults (stateOf r) <> VArr [])) /\
  (forall outcome now (s : Index2.State) log,
      trim (Index2.target s) <> [] ->
      backendCallFails outcome = true ->
      let r := Index2.handleScan outcome now (s, log) in
      completionOf r = Normal tt /\
      Index2.scanResults (stateOf r) =
        VArr (Index2.generateDemoResults (Index2.scanType s)) /\
      Index2.lastScanInfo (stateOf r) =
        Some {| Index2.LastScanInfo.type := Index2.scanType s;
                Index2.LastScanInfo.target := trim (Index2.target s);
                Index2.LastScanInfo.timestamp := now |} /\
      (forall r', thrownBy (Responded r') = None ->
         Index2.lastScanInfo
           (stateOf (Index2.handleScan (Responded r') now (s, log))) =
         Index2.lastScanInfo (stateOf r)) /\
      (In (Index2.scanType s) Index2.scanTypeOptions ->
       Index2.scanResults (stateOf r) <> VArr [])).
Proof.
  assert (Hthrown : forall outcome, backendCallFails outcome = true ->
            exists e, thrownBy outcome = Some e).
  { intros [e|r]; cbn; intros H; [eauto|]. rewrite H. eauto. }
  split.
  - intros NODE_ENV outcome now s log Ht Hf. cbv zeta.
    apply trim_nonempty in Ht. destruct (Hthrown _ Hf) as [e He].
    rewrite (handleScan_caught _ _ _ _ _ e) by assumption.
    cbn [completionOf stateOf fst snd demoState Index.scanResults Index.lastScanInfo].
    repeat split.
    + intros r' Hr'. now apply handleScan_lastScanInfo.
    + intros Hin. cbn in Hin.
      destruct Hin as [<-|[<-|[<-|[]]]]; vm_compute; discriminate.
  - intros outcome now s log Ht Hf. cbv zeta.
    apply trim_nonempty in Ht. destruct (Hthrown _ Hf) as [e He].
    rewrite (handleScan2_caught _ _ _ _ e) by assumption.
    cbn [completionOf stateOf fst snd demoState2 Index2.scanResults Index2.lastScanInfo].
    repeat split.
    + intros r' Hr'.
      destruct (thrownBy_None _ Hr') as (r & data & result & Heq & Hok & Hjs & Hres).
      injection Heq as <-.
      rewrite (handleScan2_done _ _ _ r' data result) by assumption. reflexivity.
    + intros Hin. cbn in Hin.
      destruct Hin as [<-|[<-|[<-|[]]]]; vm_compute; discriminate.
Qed.

Lemma handleScan_failure_witness :
  trim (Index.target (typed " example.com " "nmap")) <> [] /\
  backendCallFails (Rejected AbortError) = true /\
  Index.scanResults
    (stateOf (Index.handleScan development (Rejected AbortError) 1700000000000
                (typed " example.com " "nmap", []))) =
  VArr (Index.generateDemoResults (str "nmap")) /\
  Index2.scanResults
    (stateOf (Index2.handleScan
                (Responded {| status := 503; json := Throw SyntaxError |})
                1700000000000 (typed2 "10.0.0.7" "nikto", []))) =
  VArr (Index2.generateDemoResults (str "nikto")) /\
  Index2.scanResults
    (stateOf (Index2.handleScan
                (Responded {| status := 503; json := Throw SyntaxError |})
                1700000000000 (typed2 "10.0.0.7" "nikto", []))) <> VArr [].
Proof.
  assert (H1 : trim (Index.target (typed " example.com " "nmap")) <> [])
    by (vm_compute; discriminate).
  assert (H2 : trim (Index2.target (typed2 "10.0.0.7" "nikto")) <> [])
    by (vm_compute; discriminate).
  split; [exact H1|]. split; [reflexivity|]. split; [|split].
  - exact (proj1 (proj2 (proj1 handleScan_failure_falls_back_to_demo_data
                           development (Rejected AbortError) 1700000000000%Z
                           (typed " example.com " "nmap") [] H1 eq_refl))).
  - exact (proj1 (proj2 (proj2 handleScan_failure_falls_back_to_demo_data
                           (Responded {| status := 503; json := Throw SyntaxError |})
                           1700000000000%Z (typed2 "10.0.0.7" "nikto") [] H2 eq_refl))).
  - apply (proj2 (proj2 (proj2 (proj2
             (proj2 handleScan_failure_falls_back_to_demo_data
                (Responded {| status := 503; json := Throw SyntaxError |})
                1700000000000%Z (typed2 "10.0.0.7" "nikto") [] H2 eq_refl))))).
    right. right. left. reflexivity.
Defined.

(** C2, as the code has it.  [handleScan] turns away exactly the targets
    that are empty or all white space: it returns without a request and
    without touching the state.  Every other target, whatever characters it
    holds, is trimmed and submitted in one request. *)
Theorem handleScan_rejects_only_blank_targets :
  forall NODE_ENV outcome now (s : Index.State) log,
    let r := Index.handleScan NODE_ENV outcome now (s, log) in
    (trim (Index.target s) = [] <-> forallb isWhiteSpace (Index.target s) = true) /\
    (trim (Index.target s) = [] -> r = (Normal tt, (s, log))) /\
    (trim (Index.target s) <> [] ->
     requests (logOf r) =
     requests log ++
     [(Index.BACKEND_URL NODE_ENV ++ str "/scan",
       {| method := str "POST";
          headers := [(str "Content-Type", str "application/json")];
          body := VObj [(str "target", VStr (trim (Index.target s)));
                        (str "type", VStr (Index.scanType s))];
          signal := true |})]).
Proof.
  intros NODE_ENV outcome now s log. cbv zeta. split; [apply trim_nil_iff|]. split.
  - intros H. apply trim_nil_iff in H. now apply handleScan_blank.
  - intros H. apply trim_nonempty in H. now apply handleScan_requests.
Qed.

Lemma handleScan_rejects_only_blank_targets_witness :
  Index.handleScan development (ok200 []) 0%Z (typed "  " "nmap", []) =
    (Normal tt, (typed "  " "nmap", [])) /\
  requests (logOf (Index.handleScan development (ok200 []) 0%Z
                     (typed " 192.168.0.1" "nikto", []))) =
  [(str "http://localhost:5000/scan",
    {| method := str "POST";
       headers := [(str "Content-Type", str "application/json")];
       body := VObj [(str "target", VStr (str "192.168.0.1"));
                     (str "type", VStr (str "nikto"))];
       signal := true |})].
Proof.
  split.
  - apply (proj1 (proj2 (handleScan_rejects_only_blank_targets
                           development (ok200 []) 0%Z (typed "  " "nmap") []))).
    reflexivity.
  - apply (proj2 (proj2 (handleScan_rejects_only_blank_targets
                           development (ok200 []) 0%Z (typed " 192.168.0.1" "nikto") []))).
    vm_compute. discriminate.
Defined.

(** C2, as stated, fails: a target with a shell metacharacter in it passes
    the only check there is and is sent to the backend as it is. *)
Lemma metacharacter_target_is_submitted :
  existsb Spec.isShellMetachar (str "example.com; rm -rf /") = true /\
  forallb Spec.isAllowedChar (str "example.com; rm -rf /") = false /\
  requests (logOf (Index.handleScan development (ok200 [(str "result", VArr [])]) 0%Z
                     (typed "example.com; rm -rf /" "nmap", []))) =
  [(str "http://localhost:5000/scan",
    {| method := str "POST";
       headers := [(str "Content-Type", str "application/json")];
       body := VObj [(str "target", VStr (str "example.com; rm -rf /"));
                     (str "type", VStr (str "nmap"))];
       signal := true |})].
Proof. repeat split. Qed.

(** C3, as the code has it.  In every state the interface can reach, a
    click on the scan button sends one request: a POST to
    [BACKEND_URL/scan] whose body is [{target: <trimmed target>, type:
    <selected scan type>}], the scan type being "nmap", "nuclei" or
    "nikto".  When the answer is a 200 whose body is a JSON value other
    than [null], the results shown are its [result] field ([result ||
    []]): the array itself when it is an array, the empty list when the
    field is absent; this as long as the count of the toast can be written
    in its template, which is so for an array and for an absent field.
    When the body of the 200 is not JSON or is [null], and when the count
    cannot be written, the demo findings of the scan type are shown. *)
Theorem scan_submission_contract :
  forall NODE_ENV evs w,
    Index.run NODE_ENV evs (Index.initialState, []) = Some w ->
    forall outcome now w',
      Index.dispatch NODE_ENV (Index.ClickScan outcome now) w = Some w' ->
      requests (snd w') =
        requests (snd w) ++
        [(Index.BACKEND_URL NODE_ENV ++ str "/scan",
          {| method := str "POST";
             headers := [(str "Content-Type", str "application/json")];
             body := VObj [(str "target", VStr (trim (Index.target (fst w))));
                           (str "type", VStr (Index.scanType (fst w)))];
             signal := true |})] /\
      In (Index.scanType (fst w)) [str "nmap"; str "nuclei"; str "nikto"] /\
      (forall data result,
          outcome = Responded {| status := 200; json := Normal data |} ->
          getProp data (str "result") = Normal result ->
          stringable (foundCount result) = true ->
          Index.scanResults (fst w') = js_or result (VArr [])) /\
      (forall props items,
          outcome = ok200 props ->
          lookup (str "result") props = Some (VArr items) ->
          Index.scanResults (fst w') = VArr items) /\
      (forall props,
          outcome = ok200 props ->
          lookup (str "result") props = None ->
          Index.scanResults (fst w') = VArr []) /\
      (forall body,
          outcome = Responded {| status := 200; json := body |} ->
          body = Normal VNull \/ (exists e, body = Throw e) ->
          Index.scanResults (fst w') =
          VArr (Index.generateDemoResults (Index.scanType (fst w)))) /\
      (forall data result,
          outcome = Responded {| status := 200; json := Normal data |} ->
          getProp data (str "result") = Normal result ->
          stringable (foundCount result) = false ->
          Index.scanResults (fst w') =
          VArr (Index.generateDemoResults (Index.scanType (fst w)))).
Proof.
  intros NODE_ENV evs w Hrun outcome now w' Hclick.
  destruct (run_invariant _ _ _ _ Hrun) as [Hin _]; [cbn; auto | reflexivity |].
  destruct w as [s log]. cbn [Index.dispatch fst snd] in *.
  unfold Index.scanDisabled in Hclick. rewrite trim_truthy in Hclick.
  destruct (forallb isWhiteSpace (Index.target s)) eqn:Hb; [discriminate|].
  cbn [negb orb] in Hclick.
  destruct (Index.isScanning s); [discriminate|].
  injection Hclick as <-.
  assert (Hres : forall data result,
             outcome = Responded {| status := 200; json := Normal data |} ->
             getProp data (str "result") = Normal result ->
             stringable (foundCount result) = true ->
             Index.scanResults
               (fst (snd (Index.handleScan NODE_ENV outcome now (s, log)))) =
             js_or result (VArr [])).
  { intros data result -> Hg Hstr.
    rewrite (handleScan_done _ _ _ _ _ data result); auto. }
  split; [|split; [exact Hin|split; [exact Hres|split; [|split; [|split]]]]].
  - apply (handleScan_requests NODE_ENV outcome now s log Hb).
  - intros props items Ho Hl.
    rewrite (Hres (VObj props) (VArr items) Ho).
    + reflexivity.
    + cbn. rewrite Hl. reflexivity.
    + apply foundCount_array.
  - intros props Ho Hl.
    rewrite (Hres (VObj props) VUndefined Ho).
    + reflexivity.
    + cbn. rewrite Hl. reflexivity.
    + reflexivity.
  - intros body -> Hbody.
    assert (He : exists e, thrownBy (Responded {| status := 200; json := body |}) = Some e).
    { destruct Hbody as [->|[e ->]]; cbn; eauto. }
    destruct He as [e He].
    rewrite (handleScan_caught _ _ _ _ _ e) by assumption. reflexivity.
  - intros data result -> Hg Hstr.
    rewrite (handleScan_late _ _ _ _ _ data result); auto.
Qed.

Lemma scan_submission_contract_witness :
  Index.run development sampleEvents (Index.initialState, []) = Some sampleWorld /\
  Index.scanResults
    (fst (snd (Index.handleScan development
                 (ok200 [(str "result", VArr [sampleFinding])]) 42%Z sampleWorld))) =
  VArr [sampleFinding].
Proof.
  split; [reflexivity|].
  exact (proj1 (proj2 (proj2 (proj2
          (scan_submission_contract development sampleEvents sampleWorld eq_refl
             (ok200 [(str "result", VArr [sampleFinding])]) 42%Z
             (snd (Index.handleScan development
                     (ok200 [(str "result", VArr [sampleFinding])]) 42%Z sampleWorld))
             eq_refl))))
          [(str "result", VArr [sampleFinding])] [sampleFinding] eq_refl eq_refl).
Defined.

(** C3, as stated, fails: on a 200 response the results shown need not come
    from its [result] field, nor be the empty list when there is none.  A
    200 whose body is [null], or is not JSON, has no [result]; the
    component then shows the four demo findings of the port scan. *)
Lemma ok_response_without_object_shows_demo_findings :
  Index.scanResults
    (stateOf (Index.handleScan development
                (Responded {| status := 200; json := Normal VNull |}) 5%Z
                (typed "example.com" "nmap", []))) =
    VArr (Index.generateDemoResults (str "nmap")) /\
  Index.scanResults
    (stateOf (Index.handleScan development
                (Responded {| status := 200; json := Throw SyntaxError |}) 5%Z
                (typed "example.com" "nmap", []))) =
    VArr (Index.generateDemoResults (str "nmap")) /\
  List.length (Index.generateDemoResults (str "nmap")) = 4%nat.
Proof. repeat split. Qed.

(** C4, as the code has it.  No error of a scan reaches the caller:
    [handleScan] always completes normally.  An error of the [try] block is
    written to the console and nowhere else; the state gets the demo
    results, the scan info and [backendConnected = false], and the user one
    fixed toast that is the same for every error and holds neither its kind
    nor its message.  The earlier copy shows no toast at all. *)
Theorem handleScan_catches_every_error :
  (forall NODE_ENV outcome now (s : Index.State) log,
      completionOf (Index.handleScan NODE_ENV outcome now (s, log)) = Normal tt) /\
  (forall NODE_ENV outcome now (s : Index.State) log e,
      trim (Index.target s) <> [] ->
      thrownBy outcome = Some e ->
      let r := Index.handleScan NODE_ENV outcome now (s, log) in
      stateOf r = demoState s now /\
      logOf r = log ++ attempt NODE_ENV s outcome ++
                [ConsoleError (str "Scan failed:") e; Toast demoToast] /\
      toasts (logOf r) = toasts log ++ [demoToast]) /\
  (forall outcome now (s : Index2.State) log,
      completionOf (Index2.handleScan outcome now (s, log)) = Normal tt) /\
  (forall outcome now (s : Index2.State) log e,
      trim (Index2.target s) <> [] ->
      thrownBy outcome = Some e ->
      let r := Index2.handleScan outcome now (s, log) in
      stateOf r = demoState2 s now /\
      toasts (logOf r) = toasts log).
Proof.
  assert (Htoasts : forall a b, toasts (a ++ b) = toasts a ++ toasts b)
    by (intros; apply flat_map_app).
  split; [|split; [|split]].
  - intros. apply handleScan_frame.
  - intros NODE_ENV outcome now s log e Ht He. cbv zeta. apply trim_nonempty in Ht.
    rewrite (handleScan_caught _ _ _ _ _ e) by assumption.
    cbn [stateOf logOf fst snd]. repeat split.
    rewrite !Htoasts. destruct outcome; reflexivity.
  - intros outcome now s log.
    destruct (forallb isWhiteSpace (Index2.target s)) eqn:H.
    + rewrite handleScan2_blank by assumption. reflexivity.
    + destruct (thrownBy_cases outcome)
        as [[e He]|(r & data & result & -> & Hok & Hjs & Hres)].
      * rewrite (handleScan2_caught _ _ _ _ e) by assumption. reflexivity.
      * rewrite (handleScan2_done _ _ _ _ data result) by assumption. reflexivity.
  - intros outcome now s log e Ht He. cbv zeta. apply trim_nonempty in Ht.
    rewrite (handleScan2_caught _ _ _ _ e) by assumption.
    cbn [stateOf logOf fst snd]. split; [reflexivity|].
    rewrite Htoasts. cbn. apply app_nil_r.
Qed.

Lemma handleScan_catches_every_error_witness :
  trim (Index.target (typed "example.com" "nmap")) <> [] /\
  thrownBy (Responded {| status := 500; json := Normal VNull |}) =
    Some (Error [Lit (str "HTTP error! status: "); Interp (VNum 500)]) /\
  toasts (logOf (Index.handleScan development
                   (Responded {| status := 500; json := Normal VNull |}) 7%Z
                   (typed "example.com" "nmap", []))) = [demoToast].
Proof.
  assert (H : trim (Index.target (typed "example.com" "nmap")) <> [])
    by (vm_compute; discriminate).
  split; [exact H|]. split; [reflexivity|].
  exact (proj2 (proj2 (proj1 (proj2 handleScan_catches_every_error)
                         development
                         (Responded {| status := 500; json := Normal VNull |}) 7%Z
                         (typed "example.com" "nmap") [] _ H eq_refl))).
Defined.

(** C4, as stated, fails: a network failure does not reach the caller as an
    error.  The handler completes normally, the results are the four demo
    findings and the scan is recorded as made; in the earlier copy the
    state is the very one a 200 response with these findings leaves. *)
Lemma network_failure_looks_like_success :
  thrownBy (Rejected NetworkTypeError) = Some NetworkTypeError /\
  completionOf (Index.handleScan development (Rejected NetworkTypeError) 7%Z
                  (typed "example.com" "nmap", [])) = Normal tt /\
  Index.scanResults
    (stateOf (Index.handleScan development (Rejected NetworkTypeError) 7%Z
                (typed "example.com" "nmap", []))) =
    VArr (Index.generateDemoResults (str "nmap")) /\
  List.length (Index.generateDemoResults (str "nmap")) = 4%nat /\
  Index.lastScanInfo
    (stateOf (Index.handleScan development (Rejected NetworkTypeError) 7%Z
                (typed "example.com" "nmap", []))) =
    Some {| Index.LastScanInfo.type := str "nmap";
            Index.LastScanInfo.target := str "example.com";
            Index.LastScanInfo.timestamp := 7 |} /\
  stateOf (Index2.handleScan (Rejected NetworkTypeError) 7%Z
             (typed2 "example.com" "nmap", [])) =
  stateOf (Index2.handleScan
             (ok200 [(str "result", VArr (Index2.generateDemoResults (str "nmap")))])
             7%Z (typed2 "example.com" "nmap", [])).
Proof. repeat split. Qed.

(** C5, as the code has it.  The target that is submitted, and recorded in
    [lastScanInfo], is the raw input trimmed of surrounding white space and
    nothing more: letters keep their case.  Trimming a trimmed target
    changes nothing, so submitting what was submitted gives the same
    request; and for a target without upper-case letters the submitted form
    is the normalized form of the specification. *)
Theorem submitted_target_is_trimmed_only :
  forall NODE_ENV outcome now (s : Index.State) log,
    trim (Index.target s) <> [] ->
    let r := Index.handleScan NODE_ENV outcome now (s, log) in
    map (fun q => getProp (body (snd q)) (str "target")) (requests (logOf r)) =
      map (fun q => getProp (body (snd q)) (str "target")) (requests log) ++
      [Normal (VStr (trim (Index.target s)))] /\
    option_map Index.LastScanInfo.target (Index.lastScanInfo (stateOf r)) =
      Some (trim (Index.target s)) /\
    trim (trim (Index.target s)) = trim (Index.target s) /\
    Index.scanRequest (trim (Index.target s)) (Index.scanType s) =
      Index.scanRequest (Index.target s) (Index.scanType s) /\
    (existsb Spec.isUpper (Index.target s) = false ->
     trim (Index.target s) = Spec.normalize (Index.target s)).
Proof.
  intros NODE_ENV outcome now s log Ht. cbv zeta. apply trim_nonempty in Ht.
  split; [|split; [|split; [|split]]].
  - rewrite handleScan_requests by assumption. rewrite map_app. reflexivity.
  - rewrite handleScan_lastScanInfo by assumption. reflexivity.
  - apply trim_idempotent.
  - unfold Index.scanRequest. rewrite trim_idempotent. reflexivity.
  - intros H. symmetry. now apply normalize_without_upper.
Qed.

Lemma submitted_target_is_trimmed_only_witness :
  trim (Index.target (typed "  scanme.nmap.org " "nmap")) <> [] /\
  map (fun q => getProp (body (snd q)) (str "target"))
      (requests (logOf (Index.handleScan development (ok200 []) 5%Z
                          (typed "  scanme.nmap.org " "nmap", [])))) =
  [Normal (VStr (str "scanme.nmap.org"))].
Proof.
  assert (H : trim (Index.target (typed "  scanme.nmap.org " "nmap")) <> [])
    by (vm_compute; discriminate).
  split; [exact H|].
  exact (proj1 (submitted_target_is_trimmed_only development (ok200 []) 5%Z
                  (typed "  scanme.nmap.org " "nmap") [] H)).
Defined.

(** C5, as stated, fails: the host is not lower-cased.  [" Example.COM "]
    is submitted as ["Example.COM"], its normalized form is
    ["example.com"]. *)
Lemma submitted_target_keeps_its_case :
  map (fun q => getProp (body (snd q)) (str "target"))
      (requests (logOf (Index.handleScan development (ok200 []) 5%Z
                          (typed " Example.COM " "nmap", [])))) =
    [Normal (VStr (str "Example.COM"))] /\
  Spec.normalize (str " Example.COM ") = str "example.com" /\
  jsstring_eqb (str "Example.COM") (Spec.normalize (str " Example.COM ")) = false.
Proof. repeat split. Qed.

(** C6, as the code has it.  The findings [generateDemoResults] makes
    populate exactly the fields of their scan kind: port, state and service
    for "nmap"; title, severity, url and description for "nuclei";
    description and endpoint for "nikto"; each conforms to [ScanResult].
    [ScanResult] itself is one interface of eight optional fields without a
    tag: the empty object conforms to it, and so does an object that mixes
    the fields of several kinds.  What the backend sends as [result] is
    stored as it is, whatever the scan type. *)
Theorem demo_findings_have_the_shape_of_their_kind :
  (forall type k result,
      Spec.kindOfType type = Some k ->
      In result (Index.generateDemoResults type) ->
      Spec.onlyFieldsOf k result = true /\
      conformsScanResult result = true /\
      Spec.populated result =
        match k with
        | Spec.PortScan => [str "port"; str "state"; str "service"]
        | Spec.WebVulnScan => [str "title"; str "severity"; str "url"; str "description"]
        | Spec.MisconfigScan => [str "description"; str "endpoint"]
        end) /\
  conformsScanResult (VObj []) = true /\
  (forall port title endpoint,
      conformsScanResult
        (VObj [(str "port", VStr port); (str "title", VStr title);
               (str "endpoint", VStr endpoint)]) = true) /\
  (forall NODE_ENV now (s : Index.State) log items,
      trim (Index.target s) <> [] ->
      Index.scanResults
        (stateOf (Index.handleScan NODE_ENV (ok200 [(str "result", VArr items)]) now
                    (s, log))) = VArr items).
Proof.
  split; [|split; [reflexivity|split; [reflexivity|]]].
  - intros type k result Hk Hin. unfold Spec.kindOfType in Hk.
    unfold Index.generateDemoResults in Hin.
    destruct (jsstring_eqb type (str "nmap")).
    { injection Hk as <-.
      repeat (destruct Hin as [<-|Hin]; [repeat split|]). destruct Hin. }
    destruct (jsstring_eqb type (str "nuclei")).
    { injection Hk as <-.
      repeat (destruct Hin as [<-|Hin]; [repeat split|]). destruct Hin. }
    destruct (jsstring_eqb type (str "nikto")); [|discriminate].
    injection Hk as <-.
    repeat (destruct Hin as [<-|Hin]; [repeat split|]). destruct Hin.
  - intros NODE_ENV now s log items Ht. apply trim_nonempty in Ht. unfold ok200.
    rewrite (handleScan_done _ _ _ _ _ (VObj [(str "result", VArr items)]) (VArr items));
      auto using foundCount_array.
Qed.

Lemma demo_findings_have_the_shape_of_their_kind_witness :
  Spec.kindOfType (str "nikto") = Some Spec.MisconfigScan /\
  Spec.populated
    (VObj [(str "description",
            VStr (str "The anti-clickjacking X-Frame-Options header is not present."));
           (str "endpoint", VStr (str "/"))]) =
  [str "description"; str "endpoint"].
Proof.
  split; [reflexivity|].
  refine (proj2 (proj2
           (proj1 demo_findings_have_the_shape_of_their_kind
              (str "nikto") Spec.MisconfigScan
              (VObj [(str "description",
                      VStr (str "The anti-clickjacking X-Frame-Options header is not present."));
                     (str "endpoint", VStr (str "/"))])
              eq_refl _))).
  right. left. reflexivity.
Defined.

(** C6, as stated, fails: the type is no tagged union, and a record made
    for a port scan can mix the fields of all kinds.  The object below
    conforms to [ScanResult], has fields outside those of a port finding,
    and is what [scanResults] holds after a port scan to which the backend
    answered with it. *)
Lemma mixed_finding_is_accepted :
  conformsScanResult
    (VObj [(str "port", VStr (str "22")); (str "title", VStr (str "x"));
           (str "endpoint", VStr (str "/"))]) = true /\
  Spec.onlyFieldsOf Spec.PortScan
    (VObj [(str "port", VStr (str "22")); (str "title", VStr (str "x"));
           (str "endpoint", VStr (str "/"))]) = false /\
  Index.scanResults
    (stateOf (Index.handleScan development
                (ok200 [(str "result",
                         VArr [VObj [(str "port", VStr (str "22"));
                                     (str "title", VStr (str "x"));
                                     (str "endpoint", VStr (str "/"))]])])
                5%Z (typed "example.com" "nmap", []))) =
  VArr [VObj [(str "port", VStr (str "22")); (str "title", VStr (str "x"));
              (str "endpoint", VStr (str "/"))]].
Proof. repeat split. Qed.

(** C7, as the code has it.  For the target ["example.com"] and the type
    ["nmap"], when the backend answers 200 with the findings 22/open/ssh and
    80/open/http in [result], [scanResults] is exactly that array in the
    order received, and the table shows its rows in that order; port and
    state are the strings of the response, the state cell has the class of
    ['open'].  [lastScanInfo] records the type, the target and the time;
    whatever else the response holds is ignored: the run is the one of a
    response with [result] alone.  In general the rows of the table follow
    the findings one for one. *)
Theorem port_scan_results_are_shown_as_received :
  forall NODE_ENV now (s : Index.State) log extra,
    Index.target s = str "example.com" ->
    Index.scanType s = str "nmap" ->
    let r := Index.handleScan NODE_ENV
               (ok200 ((str "result", VArr twoPorts) :: extra)) now (s, log) in
    r = Index.handleScan NODE_ENV (ok200 [(str "result", VArr twoPorts)]) now (s, log) /\
    Index.scanResults (stateOf r) = VArr twoPorts /\
    Index.lastScanInfo (stateOf r) =
      Some {| Index.LastScanInfo.type := str "nmap";
              Index.LastScanInfo.target := str "example.com";
              Index.LastScanInfo.timestamp := now |} /\
    Index.renderNmapRows twoPorts =
      Normal [ {| Index.rowKey := 0; Index.portCell := VStr (str "22");
                  Index.stateClass := str "text-green-400";
                  Index.stateCell := VStr (str "open");
                  Index.serviceCell := VStr (str "ssh") |};
               {| Index.rowKey := 1; Index.portCell := VStr (str "80");
                  Index.stateClass := str "text-green-400";
                  Index.stateCell := VStr (str "open");
                  Index.serviceCell := VStr (str "http") |} ] /\
    (forall items rows,
        Index.renderNmapRows items = Normal rows ->
        map (fun row => Normal (Index.portCell row)) rows =
          map (fun result => getProp result (str "port")) items /\
        map Index.rowKey rows = seq 0 (List.length items)).
Proof.
  intros NODE_ENV now s log extra Ht Hk. cbv zeta.
  assert (Hb : forallb isWhiteSpace (Index.target s) = false)
    by (rewrite Ht; reflexivity).
  unfold ok200.
  rewrite (handleScan_done _ _ _ _ _ (VObj ((str "result", VArr twoPorts) :: extra))
             (VArr twoPorts)); auto using foundCount_array.
  rewrite (handleScan_done _ _ _ _ _ (VObj [(str "result", VArr twoPorts)])
             (VArr twoPorts)); auto using foundCount_array.
  cbn [stateOf fst snd doneState Index.scanResults Index.lastScanInfo].
  rewrite Ht, Hk.
  split; [reflexivity|].
  split; [reflexivity|]. split; [reflexivity|]. split; [reflexivity|].
  intros items rows. apply mapi_renderNmapRow.
Qed.

Lemma port_scan_results_are_shown_as_received_witness :
  Index.target (typed "example.com" "nmap") = str "example.com" /\
  Index.scanResults
    (stateOf (Index.handleScan development
                (ok200 [(str "result", VArr twoPorts); (str "toolExitCode", VNum 0)])
                1700000000000%Z (typed "example.com" "nmap", []))) = VArr twoPorts.
Proof.
  split; [reflexivity|].
  exact (proj1 (proj2
           (port_scan_results_are_shown_as_received development 1700000000000%Z
              (typed "example.com" "nmap") [] [(str "toolExitCode", VNum 0)]
              eq_refl eq_refl))).
Defined.

(** C7, as stated, fails.  No exit code is recorded: two answers that
    differ in the exit code of the tool leave the same state and the same
    effects.  A port that is an integer is not what [ScanResult] declares.
    And when the backend does not answer, the same request shows four
    findings, not two. *)
Lemma exit_code_is_not_recorded :
  Index.handleScan development
    (ok200 [(str "result", VArr twoPorts); (str "toolExitCode", VNum 0)])
    9%Z (typed "example.com" "nmap", []) =
  Index.handleScan development
    (ok200 [(str "result", VArr twoPorts); (str "toolExitCode", VNum 1)])
    9%Z (typed "example.com" "nmap", []) /\
  conformsScanResult
    (VObj [(str "port", VNum 22); (str "state", VStr (str "open"));
           (str "service", VStr (str "ssh"))]) = false /\
  option_map (fun items => List.length items)
    (match Index.scanResults
             (stateOf (Index.handleScan development (Rejected NetworkTypeError) 9%Z
                         (typed "example.com" "nmap", []))) with
     | VArr items => Some items
     | _ => None
     end) = Some 4%nat.
Proof. repeat split. Qed.

(** C8, as the code has it.  A web-vulnerability finding without a severity
    causes no error, and its badge gets the class of the [default] branch
    of [getSeverityColor]; a finding with the severity ['low'] gets the
    class of the ['low'] branch, which is another one. *)
Theorem missing_severity_gets_the_default_class :
  forall props,
    lookup (str "severity") props = None ->
    Index.severityBadgeClass (VObj props) = Normal defaultClass /\
    Index.severityBadgeClass (VObj ((str "severity", VStr (str "low")) :: props)) =
      Normal lowClass /\
    Index.getSeverityColor (VStr (str "low")) = lowClass /\
    jsstring_eqb defaultClass lowClass = false.
Proof.
  intros props H. unfold Index.severityBadgeClass.
  cbn [getProp Index.cbind]. rewrite H. repeat split.
Qed.

Lemma missing_severity_gets_the_default_class_witness :
  lookup (str "severity") [(str "title", VStr (str "Directory Listing Enabled"))] = None /\
  Index.severityBadgeClass
    (VObj [(str "title", VStr (str "Directory Listing Enabled"))]) = Normal defaultClass.
Proof.
  split; [reflexivity|].
  exact (proj1 (missing_severity_gets_the_default_class
                  [(str "title", VStr (str "Directory Listing Enabled"))] eq_refl)).
Defined.

(** C8, as stated, fails: the badge of a finding without severity does not
    get the class of an explicit ['low']. *)
Lemma missing_severity_is_not_low :
  Index.severityBadgeClass
    (VObj [(str "title", VStr (str "Directory Listing Enabled"))]) =
    Normal (str "bg-gray-500/20 text-gray-300 border-gray-500/30") /\
  Index.severityBadgeClass
    (VObj [(str "title", VStr (str "Directory Listing Enabled"));
           (str "severity", VStr (str "low"))]) =
    Normal (str "bg-blue-500/20 text-blue-300 border-blue-500/30") /\
  jsstring_eqb (str "bg-gray-500/20 text-gray-300 border-gray-500/30")
               (str "bg-blue-500/20 text-blue-300 border-blue-500/30") = false.
Proof. repeat split. Qed.

(** C9. [generateDemoResults] depends on the scan type alone.  For a type
    other than "nmap", "nuclei" and "nikto" it gives the empty list; equal
    types give equal lists; the copy of lines 642-690 gives what that of
    lines 99-147 gives.  In [handleScan] the demo results that replace a
    failed scan depend on nothing but the scan type: not on the target,
    the state, the error or the time. *)
Theorem generateDemoResults_depends_on_type_only :
  (forall type,
      ~ In type [str "nmap"; str "nuclei"; str "nikto"] ->
      Index.generateDemoResults type = []) /\
  (forall type1 type2,
      type1 = type2 ->
      Index.generateDemoResults type1 = Index.generateDemoResults type2) /\
  (forall type, Index2.generateDemoResults type = Index.generateDemoResults type) /\
  (forall NODE_ENV1 NODE_ENV2 outcome1 outcome2 now1 now2 (s1 s2 : Index.State) log1 log2,
      trim (Index.target s1) <> [] ->
      trim (Index.target s2) <> [] ->
      thrownBy outcome1 <> None ->
      thrownBy outcome2 <> None ->
      Index.scanType s1 = Index.scanType s2 ->
      Index.scanResults (stateOf (Index.handleScan NODE_ENV1 outcome1 now1 (s1, log1))) =
      Index.scanResults (stateOf (Index.handleScan NODE_ENV2 outcome2 now2 (s2, log2)))) /\
  (forall outcome1 outcome2 now1 now2 (s1 s2 : Index2.State) log1 log2,
      trim (Index2.target s1) <> [] ->
      trim (Index2.target s2) <> [] ->
      thrownBy outcome1 <> None ->
      thrownBy outcome2 <> None ->
      Index2.scanType s1 = Index2.scanType s2 ->
      Index2.scanResults (stateOf (Index2.handleScan outcome1 now1 (s1, log1))) =
      Index2.scanResults (stateOf (Index2.handleScan outcome2 now2 (s2, log2)))).
Proof.
  split; [|split; [|split; [|split]]].
  - intros type H. unfold Index.generateDemoResults.
    assert (Hne : forall lit, In (str lit) [str "nmap"; str "nuclei"; str "nikto"] ->
                    jsstring_eqb type (str lit) = false).
    { intros lit Hin. unfold jsstring_eqb.
      destruct (list_eq_dec N.eq_dec type (str lit)) as [->|]; [contradiction|reflexivity]. }
    rewrite !Hne; cbn; auto.
  - intros type1 type2 ->. reflexivity.
  - reflexivity.
  - intros e1 e2 o1 o2 now1 now2 s1 s2 log1 log2 H1 H2 Ho1 Ho2 Hty.
    apply trim_nonempty in H1, H2.
    destruct (thrownBy o1) as [x1|] eqn:E1; [|contradiction].
    destruct (thrownBy o2) as [x2|] eqn:E2; [|contradiction].
    rewrite (handleScan_caught _ _ _ _ _ x1), (handleScan_caught _ _ _ _ _ x2)
      by assumption.
    cbn. rewrite Hty. reflexivity.
  - intros o1 o2 now1 now2 s1 s2 log1 log2 H1 H2 Ho1 Ho2 Hty.
    apply trim_nonempty in H1, H2.
    destruct (thrownBy o1) as [x1|] eqn:E1; [|contradiction].
    destruct (thrownBy o2) as [x2|] eqn:E2; [|contradiction].
    rewrite (handleScan2_caught _ _ _ _ x1), (handleScan2_caught _ _ _ _ x2)
      by assumption.
    cbn. rewrite Hty. reflexivity.
Qed.

Lemma generateDemoResults_depends_on_type_only_witness :
  Index.generateDemoResults (str "masscan") = [] /\
  Index.scanResults
    (stateOf (Index.handleScan development (Rejected AbortError) 1%Z
                (typed "example.com" "nikto", []))) =
  Index.scanResults
    (stateOf (Index.handleScan (str "production")
                (Responded {| status := 404; json := Normal VNull |}) 2%Z
                (typed " 10.1.2.3 " "nikto", [Toast demoToast]))).
Proof.
  split.
  - apply (proj1 generateDemoResults_depends_on_type_only).
    cbn. intros [H|[H|[H|[]]]]; discriminate H.
  - apply (proj1 (proj2 (proj2 (proj2 generateDemoResults_depends_on_type_only)))).
    + vm_compute; discriminate.
    + vm_compute; discriminate.
    + cbn; discriminate.
    + cbn; discriminate.
    + reflexivity.
Defined.

(** C10. Every run of [handleScan] on a target that is not blank ends with
    [isScanning] false, whatever the backend answered: when the [try] block
    ends and when the [catch] block ran.  The reset is that of the
    [finally] block, which runs whatever the blocks before it did.  Hence
    no state the interface can reach by its events is scanning. *)
Theorem handleScan_ends_not_scanning :
  (forall NODE_ENV outcome now (s : Index.State) log,
      trim (Index.target s) <> [] ->
      let r := Index.handleScan NODE_ENV outcome now (s, log) in
      completionOf r = Normal tt /\ Index.isScanning (stateOf r) = false) /\
  (forall outcome now (s : Index2.State) log,
      trim (Index2.target s) <> [] ->
      let r := Index2.handleScan outcome now (s, log) in
      completionOf r = Normal tt /\ Index2.isScanning (stateOf r) = false) /\
  (forall (body : M Index.State unit) handler w,
      Index.isScanning
        (stateOf (try_catch_finally body handler (Index.setIsScanning false) w)) = false) /\
  (forall (body : M Index2.State unit) handler w,
      Index2.isScanning
        (stateOf (try_catch_finally body handler (Index2.setIsScanning false) w)) = false) /\
  (forall NODE_ENV evs w,
      Index.run NODE_ENV evs (Index.initialState, []) = Some w ->
      Index.isScanning (fst w) = false).
Proof.
  split; [|split; [|split; [|split]]].
  - intros NODE_ENV outcome now s log Ht. cbv zeta. apply trim_nonempty in Ht.
    destruct (handleScan_ends NODE_ENV outcome now s log Ht)
      as [[e ->]|(r & data & result & _ & _ & _ & _ & _ & ->)]; split; reflexivity.
  - intros outcome now s log Ht. cbv zeta. apply trim_nonempty in Ht.
    destruct (handleScan2_frame outcome now s log) as [Hc Hs]. auto.
  - apply finally_resets.
  - apply finally_resets2.
  - intros NODE_ENV evs w Hrun.
    destruct (run_invariant _ _ _ _ Hrun) as [_ H]; [cbn; auto | reflexivity | exact H].
Qed.

Lemma handleScan_ends_not_scanning_witness :
  trim (Index.target (typed "example.com" "nuclei")) <> [] /\
  Index.isScanning
    (stateOf (Index.handleScan development
                (Responded {| status := 200; json := Throw SyntaxError |}) 3%Z
                (typed "example.com" "nuclei", []))) = false.
Proof.
  assert (H : trim (Index.target (typed "example.com" "nuclei")) <> [])
    by (vm_compute; discriminate).
  split; [exact H|].
  exact (proj2 (proj1 handleScan_ends_not_scanning development
                  (Responded {| status := 200; json := Throw SyntaxError |}) 3%Z
                  (typed "example.com" "nuclei") [] H)).
Defined.

(** ** Further properties of the component *)

Lemma handleScan_toasts NODE_ENV outcome now (s : Index.State) log :
  forallb isWhiteSpace (Index.target s) = false ->
  exists t, toasts (logOf (Index.handleScan NODE_ENV outcome now (s, log))) =
            toasts log ++ [t].
Proof.
  intros H.
  assert (Htoasts : forall a b, toasts (a ++ b) = toasts a ++ toasts b)
    by (intros; apply flat_map_app).
  destruct (handleScan_ends NODE_ENV outcome now s log H)
    as [[e ->]|(r & data & result & _ & _ & _ & _ & _ & ->)].
  - exists demoToast. cbn [logOf snd]. rewrite !Htoasts. destruct outcome; reflexivity.
  - exists (doneToast result). cbn [logOf snd]. rewrite !Htoasts.
    destruct outcome; reflexivity.
Qed.

Lemma scanRequest_trim (t k : jsstring) :
  Index.scanRequest (trim t) k = Index.scanRequest t k.
Proof. unfold Index.scanRequest. rewrite trim_idempotent. reflexivity. Qed.

Lemma consistent_initial NODE_ENV : consistent NODE_ENV (Index.initialState, []).
Proof. unfold consistent. cbn. auto 10. Qed.

Lemma consistent_click NODE_ENV outcome now (s : Index.State) log :
  forallb isWhiteSpace (Index.target s) = false ->
  consistent NODE_ENV (s, log) ->
  consistent NODE_ENV (snd (Index.handleScan NODE_ENV outcome now (s, log))).
Proof.
  intros Hb (Hsc & Hty & Hlen & Htr & Hinfo).
  pose proof (handleScan_requests NODE_ENV outcome now s log Hb) as Hreq.
  destruct (handleScan_toasts NODE_ENV outcome now s log Hb) as [t Ht].
  cbn [fst snd] in *. unfold logOf in Hreq, Ht.
  assert (Hne : trim (Index.target s) <> []).
  { intros E. apply trim_nil_iff in E. congruence. }
  assert (Hlen' : List.length
            (toasts (snd (snd (Index.handleScan NODE_ENV outcome now (s, log))))) =
          List.length
            (requests (snd (snd (Index.handleScan NODE_ENV outcome now (s, log)))))).
  { rewrite Hreq, Ht, !length_app. cbn. lia. }
  assert (Hlast : exists earlier,
            requests (snd (snd (Index.handleScan NODE_ENV outcome now (s, log)))) =
            earlier ++
            [(Index.BACKEND_URL NODE_ENV ++ str "/scan",
              Index.scanRequest (trim (Index.target s)) (Index.scanType s))]).
  { exists (requests log). rewrite Hreq, scanRequest_trim. reflexivity. }
  revert Hlen' Hlast.
  destruct (handleScan_ends NODE_ENV outcome now s log Hb)
    as [[e ->]|(r & data & result & _ & _ & _ & _ & _ & ->)].
  - intros Hlen' Hlast. unfold consistent. cbn [fst snd demoState
      Index.isScanning Index.scanType Index.scanResults Index.lastScanInfo
      Index.backendConnected Index.LastScanInfo.type Index.LastScanInfo.target] in *.
    repeat split; auto. apply trim_idempotent.
  - intros Hlen' Hlast. unfold consistent. cbn [fst snd doneState
      Index.isScanning Index.scanType Index.scanResults Index.lastScanInfo
      Index.backendConnected Index.LastScanInfo.type Index.LastScanInfo.target] in *.
    repeat split; auto.
    + unfold js_or. destruct (truthy result) eqn:E; auto.
    + apply trim_idempotent.
    + discriminate.
Qed.

Lemma consistent_dispatch NODE_ENV ev (w w' : Index.world) :
  Index.dispatch NODE_ENV ev w = Some w' ->
  consistent NODE_ENV w -> consistent NODE_ENV w'.
Proof.
  destruct w as [s log]. destruct ev as [v|v|outcome now]; cbn [Index.dispatch fst].
  - intros Hd Hc. destruct (Index.isScanning s); [discriminate|].
    injection Hd as <-. exact Hc.
  - intros Hd (Hsc & Hty & Hrest). destruct (Index.isScanning s); [discriminate|].
    destruct (existsb (jsstring_eqb v) Index.scanTypeOptions) eqn:Hex; [|discriminate].
    injection Hd as <-. split; [exact Hsc|]. split; [|exact Hrest].
    apply existsb_exists in Hex. destruct Hex as (x & Hx & Heq).
    unfold jsstring_eqb in Heq. destruct (list_eq_dec N.eq_dec v x); [|discriminate].
    subst. exact Hx.
  - intros Hd Hc. unfold Index.scanDisabled in Hd. rewrite trim_truthy in Hd.
    destruct (forallb isWhiteSpace (Index.target s)) eqn:Hb; [discriminate|].
    destruct (Index.isScanning s); [discriminate|].
    injection Hd as <-. now apply consistent_click.
Qed.

Lemma consistent_run NODE_ENV evs : forall (w w' : Index.world),
  Index.run NODE_ENV evs w = Some w' ->
  consistent NODE_ENV w -> consistent NODE_ENV w'.
Proof.
  induction evs as [|ev evs IH]; intros w w'; cbn.
  - intros H. injection H as <-. auto.
  - destruct (Index.dispatch NODE_ENV ev w) as [w1|] eqn:Hd; [|discriminate].
    intros Hr Hc. apply (IH w1 w' Hr). exact (consistent_dispatch _ _ _ _ Hd Hc).
Qed.

Lemma consistent_reached NODE_ENV evs w :
  Index.run NODE_ENV evs (Index.initialState, []) = Some w -> consistent NODE_ENV w.
Proof. intros H. exact (consistent_run _ _ _ _ H (consistent_initial NODE_ENV)). Qed.

(** X1. In every state the interface reaches, there are as many toasts as
    requests: each scan that was sent was answered by exactly one toast,
    and nothing else toasts. *)
Theorem every_scan_ends_with_one_toast :
  forall NODE_ENV evs w,
    Index.run NODE_ENV evs (Index.initialState, []) = Some w ->
    List.length (toasts (snd w)) = List.length (requests (snd w)).
Proof. intros NODE_ENV evs w H. apply (consistent_reached _ _ _ H). Qed.

Lemma every_scan_ends_with_one_toast_witness :
  Index.run development sampleSession (Index.initialState, []) = Some sampleSessionEnd /\
  List.length (toasts (snd sampleSessionEnd)) = 1%nat.
Proof.
  split; [reflexivity|].
  exact (every_scan_ends_with_one_toast development sampleSession sampleSessionEnd eq_refl).
Defined.

(** X2. Between two events of the form, every scan that was started having
    run to its end: while the indicator says "Demo Mode" ([backendConnected]
    is false), what the component shows is nothing, before the first scan,
    or the demo findings of the type of the last scan: never findings of
    the backend. *)
Theorem demo_mode_shows_demo_data :
  forall NODE_ENV evs w,
    Index.run NODE_ENV evs (Index.initialState, []) = Some w ->
    Index.backendConnected (fst w) = false ->
    Index.scanResults (fst w) =
    match Index.lastScanInfo (fst w) with
    | None => VArr []
    | Some info => VArr (Index.generateDemoResults (Index.LastScanInfo.type info))
    end.
Proof.
  intros NODE_ENV evs w H Hb.
  destruct (consistent_reached _ _ _ H) as (_ & _ & _ & _ & Hinfo).
  destruct (Index.lastScanInfo (fst w)); [apply Hinfo; exact Hb | apply Hinfo].
Qed.

Lemma demo_mode_shows_demo_data_witness :
  Index.backendConnected (fst sampleSessionEnd) = false /\
  Index.scanResults (fst sampleSessionEnd) =
  VArr (Index.generateDemoResults (str "nuclei")).
Proof.
  split; [reflexivity|].
  exact (demo_mode_shows_demo_data development sampleSession sampleSessionEnd
           eq_refl eq_refl).
Defined.

(** X3. Between two events of the form, every scan that was started having
    run to its end, [lastScanInfo] tells of the last request: it is [null]
    exactly as long as no request was sent, and otherwise its type is one
    of the three options, its target is trimmed and not empty, and the
    last request sent carries that target and that type. *)
Theorem lastScanInfo_tells_of_the_last_request :
  forall NODE_ENV evs w,
    Index.run NODE_ENV evs (Index.initialState, []) = Some w ->
    match Index.lastScanInfo (fst w) with
    | None => requests (snd w) = []
    | Some info =>
        In (Index.LastScanInfo.type info) [str "nmap"; str "nuclei"; str "nikto"] /\
        trim (Index.LastScanInfo.target info) = Index.LastScanInfo.target info /\
        Index.LastScanInfo.target info <> [] /\
        exists earlier,
          requests (snd w) =
          earlier ++
          [(Index.BACKEND_URL NODE_ENV ++ str "/scan",
            {| method := str "POST";
               headers := [(str "Content-Type", str "application/json")];
               body := VObj [(str "target", VStr (Index.LastScanInfo.target info));
                             (str "type", VStr (Index.LastScanInfo.type info))];
               signal := true |})]
    end.
Proof.
  intros NODE_ENV evs w H.
  destruct (consistent_reached _ _ _ H) as (_ & _ & _ & _ & Hinfo).
  destruct (Index.lastScanInfo (fst w)) as [info|]; [|apply Hinfo].
  destruct Hinfo as (H1 & H2 & H3 & [earlier H4] & _).
  repeat split; auto. exists earlier. rewrite H4.
  unfold Index.scanRequest. rewrite H2. reflexivity.
Qed.

Lemma lastScanInfo_tells_of_the_last_request_witness :
  option_map Index.LastScanInfo.target (Index.lastScanInfo (fst sampleSessionEnd)) =
    Some (str "example.com") /\
  trim (str "example.com") = str "example.com".
Proof.
  split; [reflexivity|].
  exact (proj1 (proj2
           (lastScanInfo_tells_of_the_last_request development sampleSession
              sampleSessionEnd eq_refl))).
Defined.

(** X4. A scan never touches the two inputs: whatever the backend answers,
    [target] and [scanType] are after [handleScan] what they were before,
    and the log of effects only grows; on a blank target nothing at all is
    added to it. *)
Theorem handleScan_leaves_the_inputs :
  forall NODE_ENV outcome now (s : Index.State) log,
    let r := Index.handleScan NODE_ENV outcome now (s, log) in
    Index.target (stateOf r) = Index.target s /\
    Index.scanType (stateOf r) = Index.scanType s /\
    exists added,
      logOf r = log ++ added /\
      (trim (Index.target s) = [] -> added = [] /\ stateOf r = s).
Proof.
  intros NODE_ENV outcome now s log. cbv zeta.
  destruct (forallb isWhiteSpace (Index.target s)) eqn:H.
  - rewrite handleScan_blank by assumption. cbn. repeat split.
    exists []. rewrite app_nil_r. auto.
  - assert (Hne : trim (Index.target s) <> []).
    { intros E. apply trim_nil_iff in E. congruence. }
    destruct (handleScan_ends NODE_ENV outcome now s log H)
      as [[e ->]|(r & data & result & _ & _ & _ & _ & _ & ->)].
    + cbn. repeat split.
      eexists. split; [reflexivity|]. intros E. contradiction.
    + cbn. repeat split.
      eexists. split; [reflexivity|]. intros E. contradiction.
Qed.

(** X5. The target that goes out in the request is the input without the
    white space around it and nothing else: it is not empty, does not begin
    and does not end with white space, and the input is this target between
    two runs of white space. *)
Theorem submitted_target_has_no_space_around :
  forall NODE_ENV outcome now (s : Index.State) log,
    trim (Index.target s) <> [] ->
    exists sent before after,
      requests (logOf (Index.handleScan NODE_ENV outcome now (s, log))) =
        requests log ++
        [(Index.BACKEND_URL NODE_ENV ++ str "/scan",
          {| method := str "POST";
             headers := [(str "Content-Type", str "application/json")];
             body := VObj [(str "target", VStr sent);
                           (str "type", VStr (Index.scanType s))];
             signal := true |})] /\
      Index.target s = before ++ sent ++ after /\
      forallb isWhiteSpace before = true /\
      forallb isWhiteSpace after = true /\
      sent <> [] /\
      headNotSpace sent /\
      headNotSpace (rev sent).
Proof.
  intros NODE_ENV outcome now s log Ht.
  destruct (trimStart_suffix (Index.target s)) as [a [Ha Hwa]].
  destruct (trimEnd_prefix (trimStart (Index.target s))) as [b [Hb Hwb]].
  exists (trim (Index.target s)), a, b.
  split; [|split; [|split; [|split; [|split; [|split]]]]]; auto.
  - apply handleScan_requests. now apply trim_nonempty.
  - unfold trim. rewrite <- Hb. exact Ha.
  - apply trim_head.
  - apply trim_last.
Qed.

Lemma submitted_target_has_no_space_around_witness :
  trim (Index.target (typed "  10.0.0.7 " "nmap")) <> [] /\
  exists sent before after,
    requests (logOf (Index.handleScan development (ok200 []) 1%Z
                       (typed "  10.0.0.7 " "nmap", []))) =
      requests [] ++
      [(Index.BACKEND_URL development ++ str "/scan",
        {| method := str "POST";
           headers := [(str "Content-Type", str "application/json")];
           body := VObj [(str "target", VStr sent);
                         (str "type", VStr (Index.scanType (typed "  10.0.0.7 " "nmap")))];
           signal := true |})] /\
    Index.target (typed "  10.0.0.7 " "nmap") = before ++ sent ++ after /\
    forallb isWhiteSpace before = true /\
    forallb isWhiteSpace after = true /\
    sent <> [] /\
    headNotSpace sent /\
    headNotSpace (rev sent).
Proof.
  assert (H : trim (Index.target (typed "  10.0.0.7 " "nmap")) <> [])
    by (vm_compute; discriminate).
  split; [exact H|].
  exact (submitted_target_has_no_space_around development (ok200 []) 1%Z
           (typed "  10.0.0.7 " "nmap") [] H).
Defined.

(** X6. When the backend answers 200 with a JSON object, the one toast of
    the scan is "Scan completed" and counts the findings: the length of
    the array in [result], and 0 when there is no [result]; the backend
    then counts as connected. *)
Theorem completed_scan_toasts_the_count :
  forall NODE_ENV now (s : Index.State) log props,
    trim (Index.target s) <> [] ->
    (forall items, lookup (str "result") props = Some (VArr items) ->
       let r := Index.handleScan NODE_ENV (ok200 props) now (s, log) in
       toasts (logOf r) =
         toasts log ++
         [{| title := str "Scan completed";
             description := [Lit (str "Found ");
                             Interp (VNum (Z.of_nat (List.length items)));
                             Lit (str " results")];
             variant := None |}] /\
       Index.backendConnected (stateOf r) = true) /\
    (lookup (str "result") props = None ->
       let r := Index.handleScan NODE_ENV (ok200 props) now (s, log) in
       toasts (logOf r) =
         toasts log ++
         [{| title := str "Scan completed";
             description := [Lit (str "Found "); Interp (VNum 0); Lit (str " results")];
             variant := None |}] /\
       Index.backendConnected (stateOf r) = true).
Proof.
  intros NODE_ENV now s log props Ht. apply trim_nonempty in Ht.
  assert (Htoasts : forall a b, toasts (a ++ b) = toasts a ++ toasts b)
    by (intros; apply flat_map_app).
  split.
  - intros items Hl. cbv zeta. unfold ok200.
    rewrite (handleScan_done _ _ _ _ _ (VObj props) (VArr items));
      auto using foundCount_array; [|cbn; rewrite Hl; reflexivity].
    cbn [logOf stateOf fst snd doneState Index.backendConnected].
    split; [|reflexivity]. rewrite !Htoasts. cbn [toasts flat_map attempt app].
    unfold doneToast. cbn [getPropOpt getProp].
    replace (jsstring_eqb (str "length") (str "length")) with true by reflexivity.
    unfold js_or. cbn [truthy].
    destruct items; reflexivity.
  - intros Hl. cbv zeta. unfold ok200.
    rewrite (handleScan_done _ _ _ _ _ (VObj props) VUndefined);
      auto; [|cbn; rewrite Hl; reflexivity].
    cbn [logOf stateOf fst snd doneState Index.backendConnected].
    split; [|reflexivity]. rewrite !Htoasts. reflexivity.
Qed.

Lemma completed_scan_toasts_the_count_witness :
  trim (Index.target (typed "example.com" "nmap")) <> [] /\
  toasts (logOf (Index.handleScan development
                   (ok200 [(str "result", VArr twoPorts)]) 4%Z
                   (typed "example.com" "nmap", []))) =
  [{| title := str "Scan completed";
      description := [Lit (str "Found "); Interp (VNum 2); Lit (str " results")];
      variant := None |}].
Proof.
  assert (H : trim (Index.target (typed "example.com" "nmap")) <> [])
    by (vm_compute; discriminate).
  split; [exact H|].
  exact (proj1 (proj1 (completed_scan_toasts_the_count development 4%Z
                         (typed "example.com" "nmap") []
                         [(str "result", VArr twoPorts)] H)
                  twoPorts eq_refl)).
Defined.




Lemma handleScan_leaves_the_inputs_witness :
  Index.target (stateOf (Index.handleScan development (Rejected AbortError) 2%Z
                           (typed " example.com" "nikto", []))) = str " example.com" /\
  Index.scanType (stateOf (Index.handleScan development (Rejected AbortError) 2%Z
                             (typed " example.com" "nikto", []))) = str "nikto".
Proof.
  split.
  - exact (proj1 (handleScan_leaves_the_inputs development (Rejected AbortError) 2%Z
                    (typed " example.com" "nikto") [])).
  - exact (proj1 (proj2 (handleScan_leaves_the_inputs development (Rejected AbortError)
                           2%Z (typed " example.com" "nikto") []))).
Defined.


Lemma getProp_defined (v : value) (k : jsstring) :
  nullish v = false -> exists x, getProp v k = Normal x.
Proof. destruct v; cbn; intros H; try discriminate; eauto. Qed.

Lemma getProp_nullish (v : value) (k : jsstring) :
  nullish v = true -> getProp v k = Throw (TypeError k).
Proof. destruct v; cbn; intros H; try discriminate; reflexivity. Qed.

Lemma mapi_renderNmapRow_defined items : forall index,
  existsb nullish items = false ->
  exists rows,
    Index.mapi Index.renderNmapRow items index = Normal rows /\
    List.length rows = List.length items.
Proof.
  induction items as [|result items IH]; intros index; cbn [existsb Index.mapi].
  - exists []. auto.
  - intros H. apply orb_false_iff in H. destruct H as [Hr Hi].
    unfold Index.renderNmapRow at 1.
    destruct (getProp_defined result (str "port") Hr) as [port ->].
    destruct (getProp_defined result (str "state") Hr) as [state ->].
    destruct (getProp_defined result (str "service") Hr) as [service ->].
    cbn [Index.cbind]. destruct (IH (S index) Hi) as [rows [-> Hlen]].
    cbn [Index.cbind]. eexists. split; [reflexivity|]. cbn. congruence.
Qed.

Lemma mapi_renderNmapRow_throws items : forall index,
  existsb nullish items = true ->
  Index.mapi Index.renderNmapRow items index = Throw (TypeError (str "port")).
Proof.
  induction items as [|result items IH]; intros index; cbn [existsb Index.mapi].
  - discriminate.
  - intros H. unfold Index.renderNmapRow at 1.
    destruct (nullish result) eqn:Hr.
    + rewrite (getProp_nullish result (str "port") Hr). reflexivity.
    + destruct (getProp_defined result (str "port") Hr) as [port ->].
      destruct (getProp_defined result (str "state") Hr) as [state ->].
      destruct (getProp_defined result (str "service") Hr) as [service ->].
      cbn [Index.cbind]. cbn [orb] in H. rewrite (IH (S index) H). reflexivity.
Qed.

Lemma mapi_renderNmapRow_cells items : forall index rows,
  Index.mapi Index.renderNmapRow items index = Normal rows ->
  forallb Index.validRow rows = forallb validCells items.
Proof.
  induction items as [|result items IH]; intros index rows; cbn [Index.mapi].
  - intros H. injection H as <-. reflexivity.
  - unfold Index.renderNmapRow at 1. unfold validCells at 1. cbn [forallb].
    destruct (getProp result (str "port")) as [port|e]; cbn [Index.cbind];
      [|discriminate].
    destruct (getProp result (str "state")) as [state|e]; cbn [Index.cbind];
      [|discriminate].
    destruct (getProp result (str "service")) as [service|e]; cbn [Index.cbind];
      [|discriminate].
    destruct (Index.mapi Index.renderNmapRow items (S index)) as [l|e] eqn:Hl;
      cbn [Index.cbind]; [|discriminate].
    intros H. injection H as <-. cbn [forallb]. rewrite (IH _ _ Hl).
    unfold Index.validRow. cbn [Index.portCell Index.stateCell Index.serviceCell].
    rewrite andb_true_r, <- !andb_assoc. reflexivity.
Qed.

(** X8. The port table is shown exactly when no finding of the array is
    [null] or [undefined] and React accepts the port, state and service of
    each as children (none is an object, or an array that holds one): then
    there is one row per finding.  A finding that is [null] or [undefined]
    makes the rendering throw the [TypeError] of reading [port], whatever
    the other findings are; otherwise a cell that is an object makes React
    refuse the table. *)
Theorem port_table_needs_valid_findings :
  forall items,
    (existsb nullish items = true ->
     Index.portTable items = Throw (TypeError (str "port"))) /\
    (existsb nullish items = false ->
     forallb validCells items = true ->
     exists rows, Index.portTable items = Normal rows /\
                  List.length rows = List.length items) /\
    (existsb nullish items = false ->
     forallb validCells items = false ->
     Index.portTable items = Throw InvalidChild).
Proof.
  intros items. unfold Index.portTable, Index.renderNmapRows. split; [|split].
  - intros H. rewrite (mapi_renderNmapRow_throws items 0 H). reflexivity.
  - intros H Hv. destruct (mapi_renderNmapRow_defined items 0 H) as (rows & Hr & Hl).
    rewrite Hr. cbn [Index.cbind]. rewrite (mapi_renderNmapRow_cells _ _ _ Hr), Hv.
    eauto.
  - intros H Hv. destruct (mapi_renderNmapRow_defined items 0 H) as (rows & Hr & Hl).
    rewrite Hr. cbn [Index.cbind]. rewrite (mapi_renderNmapRow_cells _ _ _ Hr), Hv.
    reflexivity.
Qed.

Lemma port_table_needs_valid_findings_witness :
  existsb nullish (twoPorts ++ [VNull]) = true /\
  Index.portTable (twoPorts ++ [VNull]) = Throw (TypeError (str "port")) /\
  Index.portTable [VObj [(str "port", VObj [])]] = Throw InvalidChild.
Proof.
  split; [reflexivity|]. split.
  - exact (proj1 (port_table_needs_valid_findings (twoPorts ++ [VNull])) eq_refl).
  - exact (proj2 (proj2 (port_table_needs_valid_findings [VObj [(str "port", VObj [])]]))
             eq_refl eq_refl).
Defined.

Lemma is_str_true (v : value) (lit : string) :
  is_str v lit = true -> v = VStr (str lit).
Proof.
  destruct v; cbn; try discriminate. unfold jsstring_eqb.
  destruct (list_eq_dec N.eq_dec s (str lit)); [congruence|discriminate].
Qed.

(** X9. The class of the severity badge tells the severity: a value gets
    the class of 'critical', 'high', 'medium' or 'low' only if it is that
    very string (in lower case); anything else, the empty string of a
    missing severity included, gets the fifth class. *)
Theorem severity_class_tells_the_severity :
  forall v level,
    In level [str "critical"; str "high"; str "medium"; str "low"] ->
    Index.getSeverityColor v = Index.getSeverityColor (VStr level) ->
    v = VStr level.
Proof.
  intros v level Hin. unfold Index.getSeverityColor at 1.
  destruct (is_str v "critical") eqn:H1; [apply is_str_true in H1|].
  { subst v. destruct Hin as [<-|[<-|[<-|[<-|[]]]]]; intros H;
      first [reflexivity | vm_compute in H; discriminate H]. }
  destruct (is_str v "high") eqn:H2; [apply is_str_true in H2|].
  { subst v. destruct Hin as [<-|[<-|[<-|[<-|[]]]]]; intros H;
      first [reflexivity | vm_compute in H; discriminate H]. }
  destruct (is_str v "medium") eqn:H3; [apply is_str_true in H3|].
  { subst v. destruct Hin as [<-|[<-|[<-|[<-|[]]]]]; intros H;
      first [reflexivity | vm_compute in H; discriminate H]. }
  destruct (is_str v "low") eqn:H4; [apply is_str_true in H4|].
  { subst v. destruct Hin as [<-|[<-|[<-|[<-|[]]]]]; intros H;
      first [reflexivity | vm_compute in H; discriminate H]. }
  destruct Hin as [<-|[<-|[<-|[<-|[]]]]]; intros H; vm_compute in H; discriminate H.
Qed.

Lemma severity_class_tells_the_severity_witness :
  Index.getSeverityColor (VStr (str "high")) =
    str "bg-orange-500/20 text-orange-300 border-orange-500/30" /\
  VStr (str "high") = VStr (str "high").
Proof.
  split; [reflexivity|].
  apply (severity_class_tells_the_severity (VStr (str "high")) (str "high")).
  - right. left. reflexivity.
  - reflexivity.
Defined.

(** X10. The class of the state cell tells the state of the port: a value
    gets the class of 'open', 'closed' or 'filtered' only if it is that
    very string; anything else gets the fourth class. *)
Theorem state_class_tells_the_state :
  forall v state,
    In state [str "open"; str "closed"; str "filtered"] ->
    Index.getPortStateColor v = Index.getPortStateColor (VStr state) ->
    v = VStr state.
Proof.
  intros v state Hin. unfold Index.getPortStateColor at 1.
  destruct (is_str v "open") eqn:H1; [apply is_str_true in H1|].
  { subst v. destruct Hin as [<-|[<-|[<-|[]]]]; intros H;
      first [reflexivity | vm_compute in H; discriminate H]. }
  destruct (is_str v "closed") eqn:H2; [apply is_str_true in H2|].
  { subst v. destruct Hin as [<-|[<-|[<-|[]]]]; intros H;
      first [reflexivity | vm_compute in H; discriminate H]. }
  destruct (is_str v "filtered") eqn:H3; [apply is_str_true in H3|].
  { subst v. destruct Hin as [<-|[<-|[<-|[]]]]; intros H;
      first [reflexivity | vm_compute in H; discriminate H]. }
  destruct Hin as [<-|[<-|[<-|[]]]]; intros H; vm_compute in H; discriminate H.
Qed.

Lemma state_class_tells_the_state_witness :
  Index.getPortStateColor (VStr (str "filtered")) = str "text-yellow-400" /\
  VStr (str "filtered") = VStr (str "filtered").
Proof.
  split; [reflexivity|].
  apply (state_class_tells_the_state (VStr (str "filtered")) (str "filtered")).
  - right. right. left. reflexivity.
  - reflexivity.
Defined.

(** ** The PDF report *)

Arguments Index.reportHeader : simpl never.
Arguments Index.reportName : simpl never.

Lemma pageBreaks_app (a b : list Index.pdfOp) :
  pageBreaks (a ++ b) = (pageBreaks a + pageBreaks b)%nat.
Proof. unfold pageBreaks. rewrite filter_app, length_app. reflexivity. Qed.

Lemma textYs_app (a b : list Index.pdfOp) : textYs (a ++ b) = textYs a ++ textYs b.
Proof. apply flat_map_app. Qed.

Lemma numberYs_app (a b : list Index.pdfOp) : numberYs (a ++ b) = numberYs a ++ numberYs b.
Proof. apply flat_map_app. Qed.

Ltac open_finding H :=
  unfold Index.reportFinding in H;
  repeat match type of H with
         | context [if ?c then _ else _] =>
             match c with
             | jsstring_eqb _ _ => destruct c
             end
         | context [Index.cbind ?c _] =>
             let e := fresh "e" in
             destruct c as [?|e]; cbn [Index.cbind] in H; [|discriminate H]
         end;
  injection H as <- <-.

(** One finding: one number, at the start of the finding; a new page
    exactly when the last position was beyond 250; at least 10 further
    down afterwards. *)
Lemma reportFinding_shape split scanType result index y ops y' :
  Index.reportFinding split scanType result index y = Normal (ops, y') ->
  numberYs ops = [startOf y] /\
  pageBreaks ops = (if (250 <? y)%Z then 1 else 0)%nat /\
  (startOf y + 10 <= y')%Z.
Proof.
  intros H. unfold startOf. open_finding H;
    rewrite numberYs_app, pageBreaks_app;
    destruct (250 <? y)%Z;
    cbn [numberYs pageBreaks flat_map filter app List.length Index.labelled];
    unfold Index.margin; repeat split; lia.
Qed.

Lemma reportFinding_nmap split result index y ops y' :
  Index.reportFinding split (str "nmap") result index y = Normal (ops, y') ->
  textYs ops = [startOf y; startOf y; startOf y + 8; startOf y + 8 + 8]%Z /\
  y' = (startOf y + 26)%Z.
Proof.
  intros H. unfold startOf. unfold Index.reportFinding in H.
  replace (jsstring_eqb (str "nmap") (str "nmap")) with true in H by reflexivity.
  repeat match type of H with
         | context [Index.cbind ?c _] =>
             let e := fresh "e" in
             destruct c as [?|e]; cbn [Index.cbind] in H; [|discriminate H]
         end.
  injection H as <- <-. rewrite textYs_app.
  destruct (250 <? y)%Z; cbn [textYs flat_map app Index.labelled];
    unfold Index.margin; split; reflexivity || lia.
Qed.

Lemma forEachFinding_step split scanType result rest index y ops y' :
  Index.forEachFinding split scanType (result :: rest) index y = Normal (ops, y') ->
  exists ops1 y1 ops2,
    Index.reportFinding split scanType result index y = Normal (ops1, y1) /\
    Index.forEachFinding split scanType rest (S index) y1 = Normal (ops2, y') /\
    ops = ops1 ++ ops2.
Proof.
  cbn [Index.forEachFinding].
  destruct (Index.reportFinding split scanType result index y) as [[ops1 y1]|e];
    cbn [Index.cbind snd fst]; [|discriminate].
  destruct (Index.forEachFinding split scanType rest (S index) y1) as [[ops2 y2]|e] eqn:E;
    cbn [Index.cbind snd fst]; [|discriminate].
  intros H. injection H as <- <-. exists ops1, y1, ops2. auto.
Qed.

(** Every finding of a report starts between 20 and 250. *)
Lemma forEachFinding_numbers split scanType items : forall index y ops y',
  Index.forEachFinding split scanType items index y = Normal (ops, y') ->
  (20 <= y)%Z ->
  Forall (fun t => 20 <= t <= 250)%Z (numberYs ops) /\
  List.length (numberYs ops) = List.length items /\
  (20 <= y')%Z.
Proof.
  induction items as [|result rest IH]; intros index y ops y' H Hy.
  - cbn in H. injection H as <- <-. cbn. auto.
  - destruct (forEachFinding_step _ _ _ _ _ _ _ _ H) as (ops1 & y1 & ops2 & H1 & H2 & ->).
    destruct (reportFinding_shape _ _ _ _ _ _ _ H1) as (Hn & _ & Hy1).
    assert (Hs : (20 <= startOf y <= 250)%Z).
    { unfold startOf, Index.margin. destruct (250 <? y)%Z eqn:E; lia. }
    destruct (IH _ _ _ _ H2) as (Hf & Hl & Hy'); [lia|].
    rewrite numberYs_app, Hn. cbn. repeat split; auto.
Qed.

(** A port scan: all the text lies between 20 and 266, and the pages added
    are counted by the room that was left. *)
Lemma forEachFinding_nmap split items : forall index y ops y',
  Index.forEachFinding split (str "nmap") items index y = Normal (ops, y') ->
  (46 <= y)%Z ->
  Forall (fun t => 20 <= t <= 266)%Z (textYs ops) /\
  Z.of_nat (pageBreaks ops) = ((Z.of_nat (List.length items) + 8 - room y) / 9)%Z.
Proof.
  induction items as [|result rest IH]; intros index y ops y' H Hy.
  - cbn in H. injection H as <- <-. cbn [textYs pageBreaks flat_map filter List.length].
    split; [constructor|].
    unfold room. destruct (250 <? y)%Z eqn:E.
    + reflexivity.
    + apply Z.ltb_ge in E. cbn [Z.of_nat]. Z.div_mod_to_equations. lia.
  - destruct (forEachFinding_step _ _ _ _ _ _ _ _ H) as (ops1 & y1 & ops2 & H1 & H2 & ->).
    destruct (reportFinding_shape _ _ _ _ _ _ _ H1) as (_ & Hb & _).
    destruct (reportFinding_nmap _ _ _ _ _ _ H1) as (Ht & ->).
    assert (Hs : (20 <= startOf y <= 250)%Z).
    { unfold startOf, Index.margin. destruct (250 <? y)%Z eqn:E; lia. }
    destruct (IH _ _ _ _ H2) as (Hf & Hp); [lia|].
    rewrite textYs_app, pageBreaks_app, Ht, Hb, Nat2Z.inj_add, Hp. split.
    + repeat (constructor; [lia|]). exact Hf.
    + cbn [List.length]. rewrite Nat2Z.inj_succ.
      unfold room, startOf, Index.margin in *.
      destruct (250 <? y)%Z eqn:E.
      * replace (250 <? 20 + 26)%Z with false by reflexivity.
        change (Z.of_nat 1) with 1%Z.
        Z.div_mod_to_equations. lia.
      * apply Z.ltb_ge in E. change (Z.of_nat 0) with 0%Z.
        destruct (250 <? y + 26)%Z eqn:E2.
        -- apply Z.ltb_lt in E2. Z.div_mod_to_equations. lia.
        -- apply Z.ltb_ge in E2. Z.div_mod_to_equations. lia.
Qed.

Ltac open_download :=
  unfold Index.downloadPDF, bind, gets, toast, emit, ret, lift, throw;
  cbn [fst snd].

Lemma downloadPDF_refuses split now (s : Index.State) log :
  Index.lastScanInfo s = None \/ Index.scanResults s = VArr [] ->
  Index.downloadPDF split now (s, log) =
  (Normal [], (s, log ++ [Toast Index.noDataToast])).
Proof.
  intros H. open_download. destruct (Index.lastScanInfo s) as [info|].
  - destruct H as [H|H]; [discriminate|]. rewrite H. reflexivity.
  - reflexivity.
Qed.

Lemma downloadPDF_exports split now (s : Index.State) log info items :
  Index.lastScanInfo s = Some info ->
  Index.scanResults s = VArr items ->
  items <> [] ->
  Index.downloadPDF split now (s, log) =
  match Index.forEachFinding split (Index.scanType s) items 0 Index.headerEnd with
  | Normal body =>
      (Normal (Index.reportHeader info (Index.backendConnected s) ++ fst body ++
               [Index.Save (Index.reportName (Index.scanType s) info now)]),
       (s, log ++ [Toast Index.pdfToast]))
  | Throw e => (Throw e, (s, log))
  end.
Proof.
  intros Hi Hr Hne. open_download. rewrite Hi, Hr.
  cbn [getProp]. replace (jsstring_eqb (str "length") (str "length")) with true
    by reflexivity.
  destruct items as [|x xs]; [contradiction|].
  cbn [Index.isZero List.length Z.of_nat Z.eqb].
  destruct (Index.forEachFinding split (Index.scanType s) (x :: xs) 0 Index.headerEnd);
    reflexivity.
Qed.

Lemma downloadPDF_normal split now (s : Index.State) log ops :
  completionOf (Index.downloadPDF split now (s, log)) = Normal ops ->
  ops = [] \/
  exists info items body y',
    Index.lastScanInfo s = Some info /\
    Index.scanResults s = VArr items /\
    Index.forEachFinding split (Index.scanType s) items 0 Index.headerEnd =
      Normal (body, y') /\
    ops = Index.reportHeader info (Index.backendConnected s) ++ body ++
          [Index.Save (Index.reportName (Index.scanType s) info now)].
Proof.
  open_download. unfold completionOf.
  destruct (Index.lastScanInfo s) as [info|];
    [|cbn; intros H; injection H as <-; auto].
  destruct (getProp (Index.scanResults s) (str "length")) as [len|e];
    [|cbn; discriminate].
  destruct (Index.isZero len); [cbn; intros H; injection H as <-; auto|].
  destruct (Index.scanResults s) as [| | | | |items|] eqn:Hr; try (cbn; discriminate).
  destruct (Index.forEachFinding split (Index.scanType s) items 0 Index.headerEnd)
    as [[body y']|e] eqn:Hf; [|cbn; discriminate].
  cbn. intros H. injection H as <-. right. exists info, items, body, y'. auto.
Qed.

Lemma lookup_In k (props : list (jsstring * value)) x :
  lookup k props = Some x -> exists k', In (k', x) props.
Proof.
  induction props as [|[k' v] rest IH]; cbn; [discriminate|].
  destruct (jsstring_eqb k k').
  - intros H. injection H as <-. eauto.
  - intros H. destruct (IH H) as [k'' Hin]. eauto.
Qed.

(** A field of a printable finding can be written, whichever field. *)
Lemma field_defined result k :
  nullish result = false ->
  printable result = true ->
  exists shown, Index.field result k = Normal shown.
Proof.
  intros Hn Hp. unfold Index.field.
  assert (Hx : exists x, getProp result (str k) = Normal x /\
                         stringable (js_or x (VStr (str "N/A"))) = true).
  { destruct result; try discriminate; cbn [getProp]; eexists; (split; [reflexivity|]).
    - reflexivity.
    - reflexivity.
    - destruct (jsstring_eqb (str k) (str "length")); [|reflexivity].
      unfold js_or. destruct (truthy _); reflexivity.
    - destruct (jsstring_eqb (str k) (str "length")); [|reflexivity].
      unfold js_or. destruct (truthy _); reflexivity.
    - cbn [printable] in Hp. destruct (lookup (str k) props) as [x|] eqn:Hl;
        [|reflexivity].
      destruct (lookup_In _ _ _ Hl) as [k' Hin].
      rewrite forallb_forall in Hp. specialize (Hp _ Hin). cbn in Hp.
      unfold js_or. destruct (truthy x); [exact Hp|reflexivity]. }
  destruct Hx as (x & -> & Hs). cbn [Index.cbind]. unfold interpolated. rewrite Hs. eauto.
Qed.

Lemma field_nullish result k :
  nullish result = true -> Index.field result k = Throw (TypeError (str k)).
Proof.
  intros H. unfold Index.field. rewrite (getProp_nullish _ _ H). reflexivity.
Qed.

Lemma reportFinding_defined split scanType result index y :
  (forall v, exists l, split v = Normal l) ->
  nullish result = false ->
  printable result = true ->
  exists one, Index.reportFinding split scanType result index y = Normal one.
Proof.
  intros Hs Hr Hp. unfold Index.reportFinding.
  repeat match goal with
         | |- context [if jsstring_eqb ?a ?b then _ else _] => destruct (jsstring_eqb a b)
         | |- context [Index.cbind (Index.field result ?k) _] =>
             let x := fresh "x" in
             destruct (field_defined result k Hr Hp) as [x ->]; cbn [Index.cbind]
         | |- context [Index.cbind (getProp result ?k) _] =>
             let x := fresh "x" in
             destruct (getProp_defined result k Hr) as [x ->]; cbn [Index.cbind]
         | |- context [Index.cbind (split ?v) _] =>
             let l := fresh "l" in
             destruct (Hs v) as [l ->]; cbn [Index.cbind]
         end; eauto.
Qed.

Lemma forEachFinding_defined split scanType items :
  (forall v, exists l, split v = Normal l) ->
  existsb nullish items = false ->
  forallb printable items = true ->
  forall index y, exists body,
    Index.forEachFinding split scanType items index y = Normal body.
Proof.
  intros Hs. induction items as [|result rest IH]; intros Hn Hp index y;
    cbn [Index.forEachFinding].
  - eauto.
  - cbn [existsb] in Hn. apply orb_false_iff in Hn. destruct Hn as [Hr Hn].
    cbn [forallb] in Hp. apply andb_true_iff in Hp. destruct Hp as [Hp1 Hp].
    destruct (reportFinding_defined split scanType result index y Hs Hr Hp1) as [one ->].
    cbn [Index.cbind]. destruct (IH Hn Hp (S index) (snd one)) as [more ->].
    cbn [Index.cbind]. eauto.
Qed.

Lemma reportFinding_nullish split scanType result index y :
  In scanType Index.scanTypeOptions ->
  nullish result = true ->
  exists e, Index.reportFinding split scanType result index y = Throw e.
Proof.
  intros Hin Hr. unfold Index.reportFinding.
  destruct Hin as [<-|[<-|[<-|[]]]].
  - replace (jsstring_eqb (str "nmap") (str "nmap")) with true by reflexivity.
    rewrite (field_nullish _ _ Hr). cbn. eauto.
  - replace (jsstring_eqb (str "nuclei") (str "nmap")) with false by reflexivity.
    replace (jsstring_eqb (str "nuclei") (str "nuclei")) with true by reflexivity.
    rewrite (field_nullish _ _ Hr). cbn. eauto.
  - replace (jsstring_eqb (str "nikto") (str "nmap")) with false by reflexivity.
    replace (jsstring_eqb (str "nikto") (str "nuclei")) with false by reflexivity.
    replace (jsstring_eqb (str "nikto") (str "nikto")) with true by reflexivity.
    rewrite (field_nullish _ _ Hr). cbn. eauto.
Qed.

Lemma forEachFinding_nullish split scanType items :
  In scanType Index.scanTypeOptions ->
  existsb nullish items = true ->
  forall index y, exists e,
    Index.forEachFinding split scanType items index y = Throw e.
Proof.
  intros Hin. induction items as [|result rest IH]; intros Hn index y;
    cbn [Index.forEachFinding existsb] in *.
  - discriminate.
  - destruct (nullish result) eqn:Hr.
    + destruct (reportFinding_nullish split scanType result index y Hin Hr) as [e ->].
      cbn. eauto.
    + destruct (Index.reportFinding split scanType result index y) as [one|e];
        cbn [Index.cbind]; [|eauto].
      destruct (IH Hn (S index) (snd one)) as [e ->]. cbn. eauto.
Qed.

Lemma splitEvery80_defined : forall v, exists l, splitEvery80 v = Normal l.
Proof. intros v. destruct v; cbn; eauto. Qed.

(** X11. Without scan info, or with an empty list of results, [downloadPDF]
    exports nothing: no call is made on a document, the state is left as it
    is, and the one effect is the toast "No data to export". *)
Theorem downloadPDF_refuses_without_data :
  forall split now (s : Index.State) log,
    Index.lastScanInfo s = None \/ Index.scanResults s = VArr [] ->
    Index.downloadPDF split now (s, log) =
    (Normal [],
     (s, log ++ [Toast {| title := str "No data to export";
                          description := [Lit (str "Please run a scan first")];
                          variant := Some (str "destructive") |}])).
Proof. intros split now s log H. now apply downloadPDF_refuses. Qed.

Lemma downloadPDF_refuses_without_data_witness :
  Index.lastScanInfo Index.initialState = None /\
  completionOf (Index.downloadPDF splitEvery80 0%Z (Index.initialState, [])) = Normal [].
Proof.
  split; [reflexivity|].
  exact (f_equal completionOf
           (downloadPDF_refuses_without_data splitEvery80 0%Z Index.initialState []
              (or_introl eq_refl))).
Defined.

(** X12. With scan info and a list of findings that is not empty, holds no
    [null] or [undefined] and only findings whose fields can be written in
    a template literal, and a [splitTextToSize] that does not throw,
    [downloadPDF] saves a report: the header, one numbered entry per
    finding, then [pdf.save] under a name made of the scan type selected,
    the target scanned and the time; the state is left as it is and the
    one effect is the toast "PDF downloaded". *)
Theorem downloadPDF_saves_a_report :
  forall split now (s : Index.State) log info items,
    Index.lastScanInfo s = Some info ->
    Index.scanResults s = VArr items ->
    items <> [] ->
    existsb nullish items = false ->
    forallb printable items = true ->
    (forall v, exists l, split v = Normal l) ->
    exists body,
      Index.downloadPDF split now (s, log) =
      (Normal (Index.reportHeader info (Index.backendConnected s) ++ body ++
               [Index.Save [Index.Chars (str "securescan-report-");
                            Index.Shown (VStr (Index.scanType s));
                            Index.Chars (str "-");
                            Index.Shown (VStr (Index.LastScanInfo.target info));
                            Index.Chars (str "-");
                            Index.Shown (VNum now);
                            Index.Chars (str ".pdf")]]),
       (s, log ++ [Toast Index.pdfToast])) /\
      List.length (numberYs body) = List.length items.
Proof.
  intros split now s log info items Hi Hr Hne Hn Hp Hs.
  rewrite (downloadPDF_exports _ _ _ _ info items) by assumption.
  destruct (forEachFinding_defined split (Index.scanType s) items Hs Hn Hp 0
              Index.headerEnd) as [[body y'] Hf].
  rewrite Hf. exists body. split; [reflexivity|].
  apply (forEachFinding_numbers _ _ _ _ _ _ _ Hf). unfold Index.headerEnd, Index.margin. lia.
Qed.

Lemma downloadPDF_saves_a_report_witness :
  Index.scanResults afterDemoScan = VArr (Index.generateDemoResults (str "nmap")) /\
  exists body,
    Index.downloadPDF splitEvery80 5%Z (afterDemoScan, []) =
    (Normal (Index.reportHeader
               {| Index.LastScanInfo.type := str "nmap";
                  Index.LastScanInfo.target := str "example.com";
                  Index.LastScanInfo.timestamp := 1700000000000 |}
               (Index.backendConnected afterDemoScan) ++ body ++
             [Index.Save [Index.Chars (str "securescan-report-");
                          Index.Shown (VStr (Index.scanType afterDemoScan));
                          Index.Chars (str "-");
                          Index.Shown (VStr (str "example.com"));
                          Index.Chars (str "-");
                          Index.Shown (VNum 5);
                          Index.Chars (str ".pdf")]]),
     (afterDemoScan, [] ++ [Toast Index.pdfToast])) /\
    List.length (numberYs body) =
    List.length (Index.generateDemoResults (str "nmap")).
Proof.
  split; [reflexivity|].
  refine (downloadPDF_saves_a_report splitEvery80 5%Z afterDemoScan []
            {| Index.LastScanInfo.type := str "nmap";
               Index.LastScanInfo.target := str "example.com";
               Index.LastScanInfo.timestamp := 1700000000000 |}
            (Index.generateDemoResults (str "nmap"))
            eq_refl eq_refl _ eq_refl eq_refl splitEvery80_defined).
  vm_compute. discriminate.
Defined.

(** X13. A finding that is [null] or [undefined] stops the export: for any
    of the three scan types [downloadPDF] throws, nothing is saved and no
    toast is shown; the state is left as it is. *)
Theorem downloadPDF_throws_on_a_null_finding :
  forall split now (s : Index.State) log info items,
    In (Index.scanType s) [str "nmap"; str "nuclei"; str "nikto"] ->
    Index.lastScanInfo s = Some info ->
    Index.scanResults s = VArr items ->
    existsb nullish items = true ->
    exists e, Index.downloadPDF split now (s, log) = (Throw e, (s, log)).
Proof.
  intros split now s log info items Hin Hi Hr Hn.
  assert (Hne : items <> []) by (intros ->; discriminate).
  rewrite (downloadPDF_exports _ _ _ _ info items) by assumption.
  destruct (forEachFinding_nullish split (Index.scanType s) items Hin Hn 0 Index.headerEnd)
    as [e ->].
  eauto.
Qed.

Lemma downloadPDF_throws_on_a_null_finding_witness :
  existsb nullish [sampleFinding; VNull] = true /\
  exists e,
    Index.downloadPDF splitEvery80 5%Z (afterNullFinding, []) =
    (Throw e, (afterNullFinding, [])).
Proof.
  split; [reflexivity|].
  refine (downloadPDF_throws_on_a_null_finding splitEvery80 5%Z afterNullFinding []
            {| Index.LastScanInfo.type := str "nuclei";
               Index.LastScanInfo.target := str "example.com";
               Index.LastScanInfo.timestamp := 1700000000000 |}
            [sampleFinding; VNull] _ eq_refl eq_refl eq_refl).
  right. left. reflexivity.
Defined.

(** X14. In a report that is saved, every finding begins on the page: the
    number that opens it is written at a height between 20 and 250,
    whatever the scan type, the findings and the lines of their
    descriptions. *)
Theorem findings_start_within_the_page :
  forall split now (s : Index.State) log ops,
    completionOf (Index.downloadPDF split now (s, log)) = Normal ops ->
    Forall (fun y => 20 <= y <= 250)%Z (numberYs ops).
Proof.
  intros split now s log ops H.
  destruct (downloadPDF_normal _ _ _ _ _ H)
    as [->|(info & items & body & y' & Hi & Hr & Hf & ->)]; [constructor|].
  rewrite !numberYs_app.
  destruct (forEachFinding_numbers _ _ _ _ _ _ _ Hf) as (Hb & _ & _);
    [unfold Index.headerEnd, Index.margin; lia|].
  unfold Index.reportHeader. cbn [numberYs flat_map app]. rewrite app_nil_r. exact Hb.
Qed.

Lemma findings_start_within_the_page_witness :
  match completionOf (Index.downloadPDF splitEvery80 5%Z (afterDemoScan, [])) with
  | Normal ops => numberYs ops = [100; 126; 152; 178]%Z /\
                  Forall (fun y => 20 <= y <= 250)%Z (numberYs ops)
  | Throw _ => False
  end.
Proof.
  destruct (completionOf (Index.downloadPDF splitEvery80 5%Z (afterDemoScan, [])))
    as [ops|e] eqn:E.
  - split.
    + vm_compute in E. injection E as <-. reflexivity.
    + exact (findings_start_within_the_page splitEvery80 5%Z afterDemoScan [] ops E).
  - vm_compute in E. discriminate E.
Defined.

(** X15. The report of a port scan keeps all its text on the page: every
    line is written at a height between 20 and 266, however many findings
    there are. *)
Theorem port_report_stays_on_the_page :
  forall split now (s : Index.State) log ops,
    Index.scanType s = str "nmap" ->
    completionOf (Index.downloadPDF split now (s, log)) = Normal ops ->
    Forall (fun y => 20 <= y <= 266)%Z (textYs ops).
Proof.
  intros split now s log ops Hk H.
  destruct (downloadPDF_normal _ _ _ _ _ H)
    as [->|(info & items & body & y' & Hi & Hr & Hf & ->)]; [constructor|].
  rewrite Hk in Hf.
  destruct (forEachFinding_nmap _ _ _ _ _ _ Hf) as (Hb & _);
    [unfold Index.headerEnd, Index.margin; lia|].
  rewrite !textYs_app. unfold Index.reportHeader, Index.margin.
  cbn [textYs flat_map app]. rewrite app_nil_r.
  repeat (constructor; [lia|]). exact Hb.
Qed.

Lemma port_report_stays_on_the_page_witness :
  match completionOf (Index.downloadPDF splitEvery80 5%Z (afterDemoScan, [])) with
  | Normal ops => Forall (fun y => 20 <= y <= 266)%Z (textYs ops)
  | Throw _ => False
  end.
Proof.
  destruct (completionOf (Index.downloadPDF splitEvery80 5%Z (afterDemoScan, [])))
    as [ops|e] eqn:E.
  - exact (port_report_stays_on_the_page splitEvery80 5%Z afterDemoScan [] ops
             eq_refl E).
  - vm_compute in E. discriminate E.
Defined.

(** X16. The report of a port scan with [n] findings adds [(n + 2) / 9]
    pages to the first one: six findings fit under the header, nine on
    every page after it. *)
Theorem port_report_page_count :
  forall split now (s : Index.State) log info items ops,
    Index.scanType s = str "nmap" ->
    Index.lastScanInfo s = Some info ->
    Index.scanResults s = VArr items ->
    completionOf (Index.downloadPDF split now (s, log)) = Normal ops ->
    Z.of_nat (pageBreaks ops) = ((Z.of_nat (List.length items) + 2) / 9)%Z.
Proof.
  intros split now s log info items ops Hk Hi Hr H.
  destruct (downloadPDF_normal _ _ _ _ _ H)
    as [->|(info' & items' & body & y' & Hi' & Hr' & Hf & ->)].
  - destruct items as [|x xs]; [reflexivity|].
    rewrite (downloadPDF_exports _ _ _ _ info (x :: xs)) in H by (auto; discriminate).
    destruct (Index.forEachFinding split (Index.scanType s) (x :: xs) 0 Index.headerEnd);
      cbn in H; [|discriminate].
    unfold Index.reportHeader in H. cbn [app] in H. discriminate H.
  - rewrite Hr in Hr'. injection Hr' as <-. rewrite Hk in Hf.
    destruct (forEachFinding_nmap _ _ _ _ _ _ Hf) as (_ & Hp);
      [unfold Index.headerEnd, Index.margin; lia|].
    rewrite !pageBreaks_app, !Nat2Z.inj_add, Hp.
    replace (pageBreaks (Index.reportHeader info' (Index.backendConnected s)))
      with 0%nat by reflexivity.
    replace (pageBreaks [Index.Save (Index.reportName (Index.scanType s) info' now)])
      with 0%nat by reflexivity.
    replace (room Index.headerEnd) with 6%Z by reflexivity.
    replace (Z.of_nat (List.length items) + 8 - 6)%Z
      with (Z.of_nat (List.length items) + 2)%Z by lia.
    cbn [Z.of_nat]. lia.
Qed.

Lemma port_report_page_count_witness :
  match completionOf (Index.downloadPDF splitEvery80 5%Z (afterDemoScan, [])) with
  | Normal ops => Z.of_nat (pageBreaks ops) = ((4 + 2) / 9)%Z
  | Throw _ => False
  end.
Proof.
  destruct (completionOf (Index.downloadPDF splitEvery80 5%Z (afterDemoScan, [])))
    as [ops|e] eqn:E.
  - exact (port_report_page_count splitEvery80 5%Z afterDemoScan []
             {| Index.LastScanInfo.type := str "nmap";
                Index.LastScanInfo.target := str "example.com";
                Index.LastScanInfo.timestamp := 1700000000000 |}
             (Index.generateDemoResults (str "nmap")) ops eq_refl eq_refl eq_refl E).
  - vm_compute in E. discriminate E.
Defined.

Lemma demo_findings_are_objects type :
  In type Index.scanTypeOptions ->
  Index.generateDemoResults type <> [] /\
  existsb nullish (Index.generateDemoResults type) = false /\
  forallb printable (Index.generateDemoResults type) = true.
Proof.
  intros [<-|[<-|[<-|[]]]];
    (split; [vm_compute; discriminate | split; reflexivity]).
Qed.



(** X18. After a scan the backend did not answer, the report can be
    exported: in every state the interface reaches with scan info and
    [backendConnected] false, [downloadPDF] saves a report of the demo
    findings of the last scan, one numbered entry for each, provided
    [splitTextToSize] does not throw. *)
Theorem demo_report_is_exported :
  forall NODE_ENV evs w info split now log,
    Index.run NODE_ENV evs (Index.initialState, []) = Some w ->
    Index.backendConnected (fst w) = false ->
    Index.lastScanInfo (fst w) = Some info ->
    (forall v, exists l, split v = Normal l) ->
    exists body,
      Index.downloadPDF split now (fst w, log) =
      (Normal (Index.reportHeader info false ++ body ++
               [Index.Save (Index.reportName (Index.scanType (fst w)) info now)]),
       (fst w, log ++ [Toast Index.pdfToast])) /\
      List.length (numberYs body) =
      List.length (Index.generateDemoResults (Index.LastScanInfo.type info)).
Proof.
  intros NODE_ENV evs w info split now log H Hb Hi Hs.
  destruct (consistent_reached _ _ _ H) as (_ & _ & _ & _ & Hinfo).
  rewrite Hi in Hinfo. destruct Hinfo as (Hty & _ & _ & _ & Hdemo).
  specialize (Hdemo Hb).
  destruct (demo_findings_are_objects _ Hty) as (Hne & Hn & Hp).
  rewrite (downloadPDF_exports _ _ _ _ info _ Hi Hdemo Hne).
  destruct (forEachFinding_defined split (Index.scanType (fst w)) _ Hs Hn Hp 0
              Index.headerEnd) as [[body y'] Hf].
  rewrite Hf, Hb. exists body. split; [reflexivity|].
  apply (forEachFinding_numbers _ _ _ _ _ _ _ Hf). unfold Index.headerEnd, Index.margin. lia.
Qed.

Lemma demo_report_is_exported_witness :
  Index.backendConnected (fst sampleSessionEnd) = false /\
  exists body,
    Index.downloadPDF splitEvery80 11%Z (fst sampleSessionEnd, []) =
    (Normal (Index.reportHeader
               {| Index.LastScanInfo.type := str "nuclei";
                  Index.LastScanInfo.target := str "example.com";
                  Index.LastScanInfo.timestamp := 9 |} false ++ body ++
             [Index.Save (Index.reportName (Index.scanType (fst sampleSessionEnd))
                            {| Index.LastScanInfo.type := str "nuclei";
                               Index.LastScanInfo.target := str "example.com";
                               Index.LastScanInfo.timestamp := 9 |} 11)]),
     (fst sampleSessionEnd, [] ++ [Toast Index.pdfToast])) /\
    List.length (numberYs body) =
    List.length (Index.generateDemoResults (str "nuclei")).
Proof.
  split; [reflexivity|].
  exact (demo_report_is_exported development sampleSession sampleSessionEnd
           {| Index.LastScanInfo.type := str "nuclei";
              Index.LastScanInfo.target := str "example.com";
              Index.LastScanInfo.timestamp := 9 |}
           splitEvery80 11%Z [] eq_refl eq_refl eq_refl splitEvery80_defined).
Defined.

Lemma field_unprintable props k v :
  lookup (str k) props = Some v ->
  stringable v = false ->
  Index.field (VObj props) k = Throw NotPrimitive.
Proof.
  intros Hl Hs. unfold Index.field. cbn [getProp]. rewrite Hl. cbn [Index.cbind].
  assert (Ht : truthy v = true) by (destruct v; try discriminate; reflexivity).
  unfold js_or, interpolated. rewrite Ht, Hs. reflexivity.
Qed.

Lemma reportFinding_unprintable split scanType props k v index y :
  In k (printedFields scanType) ->
  lookup (str k) props = Some v ->
  stringable v = false ->
  exists e, Index.reportFinding split scanType (VObj props) index y = Throw e.
Proof.
  intros Hin Hl Hs. unfold printedFields in Hin. unfold Index.reportFinding.
  pose proof (field_unprintable props k v Hl Hs) as Hf.
  destruct (jsstring_eqb scanType (str "nmap")).
  { destruct Hin as [<-|[<-|[<-|[]]]];
      repeat match goal with
             | |- context [Index.cbind (Index.field (VObj props) ?f) _] =>
                 first [ rewrite Hf; cbn [Index.cbind]
                       | destruct (Index.field (VObj props) f); cbn [Index.cbind] ]
             end; eexists; reflexivity. }
  destruct (jsstring_eqb scanType (str "nuclei")).
  { destruct Hin as [<-|[<-|[<-|[]]]];
      repeat match goal with
             | |- context [Index.cbind (Index.field (VObj props) ?f) _] =>
                 first [ rewrite Hf; cbn [Index.cbind]
                       | destruct (Index.field (VObj props) f); cbn [Index.cbind] ]
             end; eexists; reflexivity. }
  destruct (jsstring_eqb scanType (str "nikto")); [|destruct Hin].
  destruct Hin as [<-|[]]. rewrite Hf. cbn [Index.cbind]. eexists; reflexivity.
Qed.

Lemma forEachFinding_throws_at split scanType result items :
  In result items ->
  (forall index y, exists e,
      Index.reportFinding split scanType result index y = Throw e) ->
  forall index y, exists e,
    Index.forEachFinding split scanType items index y = Throw e.
Proof.
  intros Hin Hthrow. induction items as [|first rest IH]; intros index y;
    cbn [Index.forEachFinding]; [destruct Hin|].
  destruct Hin as [->|Hin].
  - destruct (Hthrow index y) as [e ->]. cbn. eauto.
  - destruct (Index.reportFinding split scanType first index y) as [one|e];
      cbn [Index.cbind]; [|eauto].
    destruct (IH Hin (S index) (snd one)) as [e ->]. cbn. eauto.
Qed.

(** X19. A finding with a field the report writes that cannot be converted
    to a string (an object with an own [toString] property, or an array
    that holds one) stops the export: [downloadPDF] throws, nothing is
    saved and no toast is shown; the state is left as it is. *)
Theorem downloadPDF_throws_on_an_unprintable_field :
  forall split now (s : Index.State) log info items props k v,
    Index.lastScanInfo s = Some info ->
    Index.scanResults s = VArr items ->
    In (VObj props) items ->
    In k (printedFields (Index.scanType s)) ->
    lookup (str k) props = Some v ->
    stringable v = false ->
    exists e, Index.downloadPDF split now (s, log) = (Throw e, (s, log)).
Proof.
  intros split now s log info items props k v Hi Hr Hin Hk Hl Hs.
  assert (Hne : items <> []) by (intros ->; destruct Hin).
  rewrite (downloadPDF_exports _ _ _ _ info items) by assumption.
  destruct (forEachFinding_throws_at split (Index.scanType s) (VObj props) items Hin
              (fun index y => reportFinding_unprintable split _ props k v index y Hk Hl Hs)
              0%nat Index.headerEnd) as [e ->].
  eauto.
Qed.

Lemma downloadPDF_throws_on_an_unprintable_field_witness :
  stringable (VObj [(str "toString", VNum 0)]) = false /\
  exists e,
    Index.downloadPDF splitEvery80 5%Z (afterOddFinding, []) =
    (Throw e, (afterOddFinding, [])).
Proof.
  split; [reflexivity|].
  refine (downloadPDF_throws_on_an_unprintable_field splitEvery80 5%Z afterOddFinding []
            {| Index.LastScanInfo.type := str "nmap";
               Index.LastScanInfo.target := str "example.com";
               Index.LastScanInfo.timestamp := 1700000000000 |}
            [VObj [(str "port", VObj [(str "toString", VNum 0)])]]
            [(str "port", VObj [(str "toString", VNum 0)])] "port"
            (VObj [(str "toString", VNum 0)])
            eq_refl eq_refl _ _ eq_refl eq_refl).
  - left. reflexivity.
  - left. reflexivity.
Defined.
